(** * ETAGO_APIv2: object detection served over HTTP

    A shallow embedding of [app.py] and [router/detection_post.py].

    Conventions of the embedding.
    - A Python [float] is represented by its exact rational value ([Q]).
      Confidences and box corners come out of the model as float32 values;
      the only arithmetic the program does on them is [confidence*100]
      (exact in binary64 for a float32 operand) and [int(...)], which
      truncates toward zero.  NaN and infinities are not represented.
    - An RGB image is its grid of pixels, a list of rows; a pixel is a
      triple of channel bytes.
    - Code outside the repository (PIL, OpenCV, ultralytics, the pandas
      JSON writer) is a field of the [Externals] class.
    - Functions that call the model or draw on a canvas run in the monad
      [M], which threads the trace of those calls and propagates raised
      exceptions. *)

From Stdlib Require Import ZArith Zquot QArith Qabs Lia.
From Stdlib Require Import Sorting.Sorted Sorting.Permutation.
From stdpp Require Import gmap strings list pretty.

Local Open Scope Z_scope.

(** ** Exceptions and results *)

Inductive exn : Type :=
| NameError (name : string)
| TypeError (msg : string)
| ValueError (msg : string)
| IndexError (msg : string)
| AttributeError (msg : string)
| LibraryError (origin : string).

Inductive result (A : Type) : Type :=
| Ok (a : A)
| Raise (e : exn).
Arguments Ok {A} a.
Arguments Raise {A} e.

(** ** Data model *)

(** One RGB pixel, channels in the order the array stores them. *)
Abbreviation pixel := (Z * Z * Z)%type.
(** A [numpy] array of shape (H, W, 3): a list of H rows. *)
Abbreviation ndarray := (list (list pixel)).
(** A [PIL.Image] in mode RGB. *)
Abbreviation Image := (list (list pixel)).
Abbreviation bytes := (list Z).

(** A cell of the [name] column: [Series.replace] leaves a class id that
    is not a key of the mapping as it is. *)
Inductive cell : Type :=
| CStr (s : string)
| CInt (z : Z).

(** One row of the predictions DataFrame, with its index label. *)
Record Row : Type := mkRow {
  index : nat;
  xmin : Q;
  ymin : Q;
  xmax : Q;
  ymax : Q;
  confidence : Q;
  class : Z;
  name : cell
}.

Abbreviation DataFrame := (list Row).

(** One box of [results[0].boxes]: [xyxy], [conf], [cls]. *)
Record RawBox : Type := mkRawBox {
  b_xyxy : Q * Q * Q * Q;
  b_conf : Q;
  b_cls : Q
}.

(** A loaded model, identified by its weights file. *)
Record YOLO : Type := mkYOLO { weights : string }.

Global Instance YOLO_eq_dec : EqDecision YOLO.
Proof. solve_decision. Defined.

(** Keyword arguments of [model.predict]. *)
Record PredictArgs : Type := mkPredictArgs {
  imgsz : Z;
  source : Image;
  conf : Q;
  save : bool;
  augment : bool;
  flipud : Q;
  fliplr : Q;
  mosaic : Q
}.

(** Python values that the JSON endpoint returns. *)
#[warnings="-register-all"] Inductive pyval : Type :=
| PyNone
| PyStr (s : string)
| PyInt (z : Z)
| PyFloat (q : Q)
| PyList (l : list pyval)
| PyDict (d : list (string * pyval)).

(** [dict[key]] on a dictionary literal kept in insertion order. *)
Fixpoint dict_get (d : list (string * pyval)) (key : string) : option pyval :=
  match d with
  | [] => None
  | (k, v) :: d' => if String.eqb k key then Some v else dict_get d' key
  end.

Definition dict_keys (d : list (string * pyval)) : list string := d.*1.

(** A [StreamingResponse]. *)
Record StreamingResponse : Type := mkStreamingResponse {
  content : bytes;
  media_type : string
}.

Abbreviation color := (Z * Z * Z)%type.
Abbreviation Font := (string * Z)%type.

(** ** Calls that leave the program *)

Inductive event : Type :=
| EvPredict (model : YOLO) (args : PredictArgs)
| EvBoxLabel (bbox : list Q) (text : string) (c : color)
| EvText (xy : Z * Z) (text : string) (font : Font) (fill : color + string).

Abbreviation trace := (list event).

(** The libraries the program calls. *)
Class Externals : Type := {
  (** [Image.open(io.BytesIO(b)).convert("RGB")] *)
  Image_open : bytes -> result Image;
  (** [image.save(buf, format='JPEG', quality=q)] *)
  Image_save : Image -> string -> Z -> bytes;
  (** [model.predict] with keyword arguments: one list of boxes per source image *)
  YOLO_predict : YOLO -> PredictArgs -> result (list (list RawBox));
  (** [model.model.names] *)
  YOLO_names : YOLO -> gmap Z string;
  (** what [annotator.box_label(bbox, text, color=c)] does to the canvas *)
  Annotator_box_label : ndarray -> list Q -> string -> color -> ndarray;
  (** the palette [colors(i, bgr)] *)
  colors : Z -> bool -> color;
  (** [ImageFont.truetype(path, size)] *)
  ImageFont_truetype : string -> Z -> result Font;
  (** what [draw.text(xy, text, font=f, fill=c)] does to the image *)
  ImageDraw_text : Image -> Z * Z -> string -> Font -> color + string -> Image;
  (** [cv2.GaussianBlur(src, ksize, sigmaX)] *)
  cv2_GaussianBlur : ndarray -> Z * Z -> Q -> result ndarray;
  (** the number read back after [DataFrame.to_json] wrote it *)
  json_float : Q -> Q;
  (** where numpy's argsort of the column [keys] puts position [i] among
      the positions whose entries are equal: its default sort is not
      stable *)
  argsort_tie_rank : list Q -> nat -> nat;
  (** [str(x)] for an int64 value [x] read from a row that [iterrows]
      widened to float64 *)
  float64_str : Z -> string
}.

(** ** The monad of traced, fallible computations *)

Definition M (A : Type) : Type := trace -> result A * trace.

Definition ret {A} (a : A) : M A := fun t => (Ok a, t).

Definition raise {A} (e : exn) : M A := fun t => (Raise e, t).

Definition bind {A B} (m : M A) (k : A -> M B) : M B :=
  fun t =>
    match m t with
    | (Ok a, t') => k a t'
    | (Raise e, t') => (Raise e, t')
    end.

Definition emit (e : event) : M unit := fun t => (Ok tt, t ++ [e]).

Definition lift {A} (r : result A) : M A := fun t => (r, t).

Declare Scope py_scope.
Delimit Scope py_scope with py.
Notation "x <- m ;; k" := (bind m (fun x => k))
  (at level 100, m at next level, right associativity) : py_scope.
Notation "m ;;; k" := (bind m (fun _ => k))
  (at level 100, right associativity) : py_scope.
Local Open Scope py_scope.

(** A [for] loop whose body runs in [M]. *)
Fixpoint for_each {A S} (l : list A) (body : S -> A -> M S) (s : S) : M S :=
  match l with
  | [] => ret s
  | a :: l' => s' <- body s a ;; for_each l' body s'
  end.

(** ** Python and numpy primitives *)

(** [int(x)] on a float: truncation toward zero. *)
Definition py_int (x : Q) : Z := Z.quot (Qnum x) (Z.pos (Qden x)).

(** [str(x)] of a cell held as a Python object. *)
Definition cell_str (c : cell) : string :=
  match c with
  | CStr s => s
  | CInt z => pretty z
  end.

(** [sep.join(items)]; a non-string item raises [TypeError]. *)
Fixpoint str_join (sep : string) (items : list cell) : result string :=
  match items with
  | [] => Ok ""%string
  | CInt _ :: _ => Raise (TypeError "sequence item: expected str instance")
  | [CStr s] => Ok s
  | CStr s :: rest =>
      match str_join sep rest with
      | Ok r => Ok (s +:+ sep +:+ r)
      | Raise e => Raise e
      end
  end.

(** Bounds of the slice [a:b] on an axis of length [n]: a negative index
    counts from the end, and both ends are clipped to the axis. *)
Definition slice_index (i : Z) (n : nat) : nat :=
  if i <? 0 then Z.to_nat (Z.max (i + Z.of_nat n) 0)
  else Nat.min (Z.to_nat i) n.

Definition in_slice (a b : Z) (n : nat) (k : nat) : bool :=
  (slice_index a n <=? k)%nat && (k <? slice_index b n)%nat.

(** [arr.shape[1]] *)
Definition shape_w (arr : ndarray) : nat :=
  match arr with
  | [] => 0%nat
  | row :: _ => length row
  end.

(** Reversing the channel axis of one pixel. *)
Definition flip_pixel (p : pixel) : pixel :=
  let '(c0, c1, c2) := p in (c2, c1, c0).

(** [arr[:, :, ::-1]] *)
Definition flip_channels (arr : ndarray) : ndarray :=
  fmap (M := list) (fmap (M := list) flip_pixel) arr.

(** [arr[y, x]], when the position exists. *)
Definition pixel_at (arr : ndarray) (y x : nat) : option pixel :=
  arr !! y ≫= fun row : list pixel => row !! x.

(** [arr[y1:y2, x1:x2]] *)
Definition get_slice (arr : ndarray) (y1 y2 x1 x2 : Z) : ndarray :=
  let h := length arr in
  let w := shape_w arr in
  map (fun row : list pixel =>
         take (slice_index x2 w - slice_index x1 w) (drop (slice_index x1 w) row))
      (take (slice_index y2 h - slice_index y1 h) (drop (slice_index y1 h) arr)).

(** [arr[y1:y2, x1:x2] = v] for a scalar [v], broadcast to every channel. *)
Definition set_slice_scalar (arr : ndarray) (y1 y2 x1 x2 : Z) (v : Z) : ndarray :=
  let h := length arr in
  let w := shape_w arr in
  imap (fun y row =>
          if in_slice y1 y2 h y
          then imap (fun x p => if in_slice x1 x2 w x then (v, v, v) else p) row
          else row) arr.

(** [arr[y1:y2, x1:x2] = sub] for an array [sub]; the shapes must agree. *)
Definition set_slice_array (arr : ndarray) (y1 y2 x1 x2 : Z) (sub : ndarray)
  : result ndarray :=
  let h := length arr in
  let w := shape_w arr in
  let nrows := (slice_index y2 h - slice_index y1 h)%nat in
  let ncols := (slice_index x2 w - slice_index x1 w)%nat in
  if bool_decide (length sub = nrows)
     && forallb (fun r => bool_decide (length r = ncols)) sub
  then
    Ok (imap (fun y row =>
          if in_slice y1 y2 h y
          then imap (fun x p =>
                 if in_slice x1 x2 w x
                 then default p
                        (sub !! (y - slice_index y1 h)%nat
                           ≫= fun r => r !! (x - slice_index x1 w)%nat)
                 else p) row
          else row) arr)
  else Raise (ValueError "could not broadcast input array").

(** [range(a, b)] *)
Definition py_range (a b : Z) : list Z := seqZ a (b - a).

(** ** [app.py]: the module namespace *)

(** What a module-level name is bound to. *)
Inductive gval : Type :=
| GImport (qualname : string)
| GFunction (def : string)
| GModel (m : YOLO).

(** The top-level statements of [app.py] that bind a name, in order. *)
Definition app_bindings : list (string * gval) :=
  [ ("Image", GImport "PIL.Image");
    ("io", GImport "io");
    ("pd", GImport "pandas");
    ("np", GImport "numpy");
    ("cv2", GImport "cv2");
    ("Optional", GImport "typing.Optional");
    ("YOLO", GImport "ultralytics.YOLO");
    ("Annotator", GImport "ultralytics.utils.plotting.Annotator");
    ("colors", GImport "ultralytics.utils.plotting.colors");
    ("model_sample_detect", GModel (mkYOLO "./models/sample_model/best.pt"));
    ("get_image_from_bytes", GFunction "get_image_from_bytes");
    ("get_bytes_from_image", GFunction "get_bytes_from_image");
    ("transform_predict_to_df", GFunction "transform_predict_to_df");
    ("get_model_predict", GFunction "get_model_predict");
    ("get_model_segment", GFunction "get_model_segment");
    ("add_bboxs_on_img", GFunction "add_bboxs_on_img");
    ("detect_sample_model", GFunction "detect_sample_model");
    ("censor_objects", GFunction "censor_objects");
    ("segment_sample_model", GFunction "segment_sample_model") ]%string.

(** The namespace once the module has been imported: a later binding of a
    name replaces an earlier one. *)
Definition app_globals : gmap string gval :=
  fold_left (fun g '(k, v) => <[k:=v]> g) app_bindings ∅.

(** Reading a global name. *)
Definition load_global (name : string) : M gval :=
  match app_globals !! name with
  | Some v => ret v
  | None => raise (NameError name)
  end.

(** Using a value as a model (its [predict] attribute is about to be read). *)
Definition as_model (v : gval) : M YOLO :=
  match v with
  | GModel m => ret m
  | _ => raise (AttributeError "predict")
  end.

(** ** [app.py]: the functions *)

Section App.
Context `{Externals}.

(** [model.predict(...)], recorded in the trace. *)
Definition model_predict (model : YOLO) (args : PredictArgs)
  : M (list (list RawBox)) :=
  emit (EvPredict model args) ;;; lift (YOLO_predict model args).

(** [annotator.box_label(bbox, text, color=c)], recorded in the trace. *)
Definition box_label (im : ndarray) (bbox : list Q) (text : string) (c : color)
  : M ndarray :=
  emit (EvBoxLabel bbox text c) ;;; ret (Annotator_box_label im bbox text c).

(** [draw.text(xy, text, font=font, fill=fill)], recorded in the trace. *)
Definition draw_text (im : Image) (xy : Z * Z) (text : string) (font : Font)
    (fill : color + string) : M Image :=
  emit (EvText xy text font fill) ;;; ret (ImageDraw_text im xy text font fill).

Definition get_image_from_bytes (binary_image : bytes) : M Image :=
  lift (Image_open binary_image).

Definition get_bytes_from_image (image : Image) : bytes :=
  Image_save image "JPEG" 85.

Definition transform_predict_to_df (results : list (list RawBox))
    (labeles_dict : gmap Z string) : M DataFrame :=
  match results with
  | [] => raise (IndexError "list index out of range")
  | boxes :: _ =>
      ret (imap (fun i b =>
             let '(x1, y1, x2, y2) := b_xyxy b in
             let cls := py_int (b_cls b) in
             mkRow i x1 y1 x2 y2 (b_conf b) cls
               (match labeles_dict !! cls with
                | Some s => CStr s
                | None => CInt cls
                end)) boxes)
  end.

(** The parameters after [input_image] have defaults in the source
    ([save=False], [image_size=1248], [conf=0.5], [augment=False]); every
    caller passes all of them. *)
Definition get_model_predict (model : YOLO) (input_image : Image) (save : bool)
    (image_size : Z) (conf : Q) (augment : bool) : M DataFrame :=
  predictions <- model_predict model
                   {| imgsz := image_size; source := input_image; conf := conf;
                      save := save; augment := augment;
                      flipud := 0; fliplr := 0; mosaic := 0 |} ;;
  transform_predict_to_df predictions (YOLO_names model).

Definition get_model_segment (model : YOLO) (input_image : Image) (save : bool)
    (image_size : Z) (conf : Q) (augment : bool) : M DataFrame :=
  predictions <- model_predict model
                   {| imgsz := image_size; source := input_image; conf := conf;
                      save := save; augment := augment;
                      flipud := 0; fliplr := 0; mosaic := 0 |} ;;
  transform_predict_to_df predictions (YOLO_names model).

(** The order of the argsort between two positions of the frame: by
    [xmin], and between equal entries by the rank numpy's sort gives
    them. *)
Definition argsort_before (keys : list Q) (a b : nat * Row) : bool :=
  if Qle_bool (xmin a.2) (xmin b.2)
  then if Qle_bool (xmin b.2) (xmin a.2)
       then (argsort_tie_rank keys a.1 <=? argsort_tie_rank keys b.1)%nat
       else true
  else false.

(** One step of the sort: [r] goes after every row that comes before it
    or at the same place. *)
Fixpoint insert_by_xmin (keys : list Q) (r : nat * Row)
    (sorted : list (nat * Row)) : list (nat * Row) :=
  match sorted with
  | [] => [r]
  | r' :: rest =>
      if argsort_before keys r' r then r' :: insert_by_xmin keys r rest
      else r :: r' :: rest
  end.

(** [predict.sort_values(by=['xmin'], ascending=True)]: the rows taken in
    the order of numpy's argsort of the column.  The order between rows
    of equal [xmin] is the sort's own and is left to [argsort_tie_rank]. *)
Definition sort_values_xmin (predict : DataFrame) : DataFrame :=
  let keys := map xmin predict in
  (fold_left (fun acc r => insert_by_xmin keys r acc) (imap pair predict) []).*2.

(** No cell of the [name] column is a string: the column is still int64
    and every column of the frame is numeric. *)
Definition numeric_frame (predict : DataFrame) : bool :=
  forallb (fun row => match name row with
                      | CInt _ => true
                      | CStr _ => false
                      end) predict.

(** The field [{row['name']}] of the label.  [iterrows] hands out each row
    as one Series: in a numeric frame the row is widened to float64 and
    the class id left in the name column prints as a float; otherwise
    the row holds the cells as they are. *)
Definition name_field (widened : bool) (c : cell) : string :=
  match c with
  | CStr s => s
  | CInt z => if widened then float64_str z else pretty z
  end.

Definition add_bboxs_on_img (image : Image) (predict : DataFrame) : M Image :=
  let annotator : ndarray := image in
  let widened := numeric_frame predict in
  let predict := sort_values_xmin predict in
  annotator <-
    for_each predict (fun annotator row =>
      let text := name_field widened (name row) +:+ ": "
                    +:+ pretty (py_int (confidence row * 100)) +:+ "%" in
      let bbox := [xmin row; ymin row; xmax row; ymax row] in
      box_label annotator bbox text (colors (class row) true)) annotator ;;
  ret annotator.

Definition detect_sample_model (input_image : Image) : M DataFrame :=
  _ <- load_global "get_model_predict" ;;
  model <- (v <- load_global "model_sample_detect" ;; as_model v) ;;
  get_model_predict model input_image false 768 (1 # 2) false.

Definition censor_objects (image : Image) (predictions : DataFrame)
    (method : string) : M Image :=
  let open_cv_image := flip_channels image in
  open_cv_image <-
    for_each predictions (fun open_cv_image row =>
      let x1 := py_int (xmin row) in
      let y1 := py_int (ymin row) in
      let x2 := py_int (xmax row) in
      let y2 := py_int (ymax row) in
      if String.eqb method "blur" then
        blurred <- lift (cv2_GaussianBlur (get_slice open_cv_image y1 y2 x1 x2)
                           (0, 0) 10) ;;
        lift (set_slice_array open_cv_image y1 y2 x1 x2 blurred)
      else if String.eqb method "mask" then
        ret (set_slice_scalar open_cv_image y1 y2 x1 x2 0)
      else ret open_cv_image) open_cv_image ;;
  let censored_image := flip_channels open_cv_image in
  ret censored_image.

Definition segment_sample_model (input_image : Image) : M DataFrame :=
  _ <- load_global "get_model_segment" ;;
  model <- (v <- load_global "model_sample_segment" ;; as_model v) ;;
  get_model_segment model input_image true 640 (1 # 4) false.

End App.

(** ** [router/detection_post.py]: the endpoints

    The calls to [logger.info] write to the log only and are left out. *)

Section Router.
Context `{Externals}.

(** A cell as [json.loads] reads it back. *)
Definition cell_json (c : cell) : pyval :=
  match c with
  | CStr s => PyStr s
  | CInt z => PyInt z
  end.

(** [json.loads(df.to_json(orient='records'))] for [df = predict[['name',
    'confidence']]]: one dictionary per row, keys in column order. *)
Definition to_json_records (detect_res : list (cell * Q)) : list pyval :=
  map (fun '(n, c) =>
         PyDict [("name"%string, cell_json n);
                 ("confidence"%string, PyFloat (json_float c))]) detect_res.

Definition img_object_detection_to_json (file : bytes) : M pyval :=
  let result := PyDict [("detect_objects"%string, PyNone)] in
  input_image <- get_image_from_bytes file ;;
  predict <- detect_sample_model input_image ;;
  if (length predict =? 0)%nat then
    ret (PyDict [("message"%string, PyStr "No objects detected.")])
  else
    let detect_res := map (fun row => (name row, confidence row)) predict in
    let objects := map fst detect_res in
    joined <- lift (str_join ", " objects) ;;
    let result :=
      PyDict [("detect_objects_names"%string, PyStr joined);
              ("detect_objects"%string, PyList (to_json_records detect_res))] in
    ret result.

Definition img_object_detection_to_img (file : bytes) : M StreamingResponse :=
  input_image <- get_image_from_bytes file ;;
  predict <- detect_sample_model input_image ;;
  if (length predict =? 0)%nat then
    font <- lift (ImageFont_truetype "arial.ttf" 15) ;;
    let text := "NO OBJECTS DETECTED."%string in
    let '(x, y) := (20, 20) in
    let fill_color : color + string := inl (255, 165, 0) in
    let outline_color : color + string := inr "black"%string in
    input_image <-
      for_each (py_range (-2) 3) (fun input_image adj =>
        input_image <- draw_text input_image (x + adj, y) text font outline_color ;;
        input_image <- draw_text input_image (x, y + adj) text font outline_color ;;
        input_image <- draw_text input_image (x + adj, y + adj) text font outline_color ;;
        draw_text input_image (x - adj, y - adj) text font outline_color)
        input_image ;;
    input_image <- draw_text input_image (x, y) text font fill_color ;;
    ret (mkStreamingResponse (get_bytes_from_image input_image) "image/jpeg")
  else
    final_image <- add_bboxs_on_img input_image predict ;;
    ret (mkStreamingResponse (get_bytes_from_image final_image) "image/jpeg").

Definition img_object_detection_to_censored_img (file : bytes)
  : M StreamingResponse :=
  input_image <- get_image_from_bytes file ;;
  predict <- detect_sample_model input_image ;;
  if (length predict =? 0)%nat then
    font <- lift (ImageFont_truetype "arial.ttf" 15) ;;
    let text := "NO OBJECTS DETECTED."%string in
    let '(x, y) := (20, 20) in
    let fill_color : color + string := inl (255, 165, 0) in
    let outline_color : color + string := inr "black"%string in
    input_image <-
      for_each (py_range (-2) 3) (fun input_image adj =>
        input_image <- draw_text input_image (x + adj, y) text font outline_color ;;
        input_image <- draw_text input_image (x, y + adj) text font outline_color ;;
        input_image <- draw_text input_image (x + adj, y + adj) text font outline_color ;;
        draw_text input_image (x - adj, y - adj) text font outline_color)
        input_image ;;
    input_image <- draw_text input_image (x, y) text font fill_color ;;
    ret (mkStreamingResponse (get_bytes_from_image input_image) "image/jpeg")
  else
    censored_image <- censor_objects input_image predict "blur" ;;
    ret (mkStreamingResponse (get_bytes_from_image censored_image) "image/jpeg").

End Router.

(** ** A small world to run the program in

    A 6 x 4 image, a model that reports the boxes stored in the first
    bytes of the upload, and drawing primitives that record what they were
    asked to draw in the first pixel row. *)

Module Sample.

Definition grey (v : Z) : pixel := (v, v + 1, v + 2).

Definition image64 : Image :=
  map (fun y => map (fun x => grey (10 * y + x)) (seqZ 0 6)) (seqZ 0 4).

(** The same image with its red channel raised: the scene with objects. *)
Definition image_busy : Image :=
  map (map (fun '(r, g, b) => (r + 1, g, b))) image64.

Definition detect : YOLO := mkYOLO "./models/sample_model/best.pt".

Definition class_names : gmap Z string :=
  <[0 := "person"%string]> (<[1 := "plate"%string]> ∅).

(** Three detections; the model lists the rightmost one first. *)
Definition boxes3 : list RawBox :=
  [ mkRawBox (4, 1, 6, 3)%Q (15 # 16) 0;
    mkRawBox (0, 0, 2, 2)%Q (3 # 4) 1;
    mkRawBox (5 # 2, 1, 7 # 2, 4)%Q (1 # 2) 0 ].

(** The DataFrame made from [boxes3]. *)
Definition rows3 : DataFrame :=
  [ mkRow 0 4 1 6 3 (15 # 16) 0 (CStr "person");
    mkRow 1 0 0 2 2 (3 # 4) 1 (CStr "plate");
    mkRow 2 (5 # 2) 1 (7 # 2) 4 (1 # 2) 0 (CStr "person") ].

(** The call of the model that the endpoints make on [im]. *)
Definition detect_call (im : Image) : event :=
  EvPredict detect
    {| imgsz := 768; source := im; conf := 1 # 2; save := false;
       augment := false; flipud := 0; fliplr := 0; mosaic := 0 |}.

(** The upload selects the scene: byte 0 is an empty scene, byte 1 the
    scene of [boxes3]; anything else does not decode. *)
Definition scene (im : Image) : list RawBox :=
  match im with
  | ((1, _, _) :: _) :: _ => boxes3
  | _ => []
  end.

#[local] Instance world : Externals := {|
  Image_open b :=
    match b with
    | [0] => Ok image64
    | [1] => Ok image_busy
    | _ => Raise (LibraryError "PIL.UnidentifiedImageError")
    end;
  Image_save im fmt q := concat (map (fun '(r, g, b) => [r; g; b]) (concat im));
  YOLO_predict m args :=
    if bool_decide (m = detect) && (imgsz args =? 768)
    then Ok [scene (source args)]
    else Raise (LibraryError "ultralytics");
  YOLO_names m := class_names;
  Annotator_box_label im bbox text c :=
    map (map (fun '(r, g, b) => (r, g + 1, Z.of_nat (String.length text)))) im;
  colors i bgr := (i, i, if bgr then 1 else 0);
  ImageFont_truetype path size := Ok (path, size);
  ImageDraw_text im xy text font fill :=
    map (map (fun '(r, g, b) => (r, g + fst xy, b + snd xy))) im;
  cv2_GaussianBlur src ksize sigma :=
    match src with
    | [] => Raise (LibraryError "cv2.error")
    | _ => Ok (map (map (fun _ : pixel => (7, 7, 7))) src)
    end;
  json_float q := Qred q;
  argsort_tie_rank keys i := (length keys - i)%nat;
  float64_str z := pretty z +:+ ".0"
|}.

(** The same world with a model whose name mapping is empty. *)
#[local] Instance world_unnamed : Externals := {|
  Image_open := @Image_open world;
  Image_save := @Image_save world;
  YOLO_predict := @YOLO_predict world;
  YOLO_names m := ∅;
  Annotator_box_label := @Annotator_box_label world;
  colors := @colors world;
  ImageFont_truetype := @ImageFont_truetype world;
  ImageDraw_text := @ImageDraw_text world;
  cv2_GaussianBlur := @cv2_GaussianBlur world;
  json_float := @json_float world;
  argsort_tie_rank := @argsort_tie_rank world;
  float64_str := @float64_str world
|}.

(** The same world with a model that fails on every image. *)
#[local] Instance world_down : Externals := {|
  Image_open := @Image_open world;
  Image_save := @Image_save world;
  YOLO_predict m args := Raise (LibraryError "ultralytics");
  YOLO_names := @YOLO_names world;
  Annotator_box_label := @Annotator_box_label world;
  colors := @colors world;
  ImageFont_truetype := @ImageFont_truetype world;
  ImageDraw_text := @ImageDraw_text world;
  cv2_GaussianBlur := @cv2_GaussianBlur world;
  json_float := @json_float world;
  argsort_tie_rank := @argsort_tie_rank world;
  float64_str := @float64_str world
|}.

(** The same world without the font file. *)
#[local] Instance world_nofont : Externals := {|
  Image_open := @Image_open world;
  Image_save := @Image_save world;
  YOLO_predict := @YOLO_predict world;
  YOLO_names := @YOLO_names world;
  Annotator_box_label := @Annotator_box_label world;
  colors := @colors world;
  ImageFont_truetype path size := Raise (LibraryError "OSError");
  ImageDraw_text := @ImageDraw_text world;
  cv2_GaussianBlur := @cv2_GaussianBlur world;
  json_float := @json_float world;
  argsort_tie_rank := @argsort_tie_rank world;
  float64_str := @float64_str world
|}.

End Sample.

(** ** Vocabulary of the properties *)

(** All rows of the array have the width of the first one. *)
Definition rectangular (arr : ndarray) : Prop :=
  Forall (fun row : list pixel => length row = shape_w arr) arr.

(** The body of the loop of [censor_objects] for [method = 'mask']. *)
Definition mask_row (arr : ndarray) (row : Row) : ndarray :=
  set_slice_scalar arr (py_int (ymin row)) (py_int (ymax row))
    (py_int (xmin row)) (py_int (xmax row)) 0.

(** The positions that the slice of [row] selects in an array of shape
    [(h, w)]. *)
Definition sliced (h w : nat) (row : Row) (y x : nat) : bool :=
  in_slice (py_int (ymin row)) (py_int (ymax row)) h y
  && in_slice (py_int (xmin row)) (py_int (xmax row)) w x.

(** The pixel columns and rows that the truncated box of [row] spans. *)
Definition covers (row : Row) (y x : nat) : bool :=
  (py_int (ymin row) <=? Z.of_nat y) && (Z.of_nat y <? py_int (ymax row))
  && ((py_int (xmin row) <=? Z.of_nat x) && (Z.of_nat x <? py_int (xmax row))).

(** No truncated corner coordinate of the box is negative. *)
Definition corners_nonneg (row : Row) : Prop :=
  0 <= py_int (xmin row) /\ 0 <= py_int (ymin row)
  /\ 0 <= py_int (xmax row) /\ 0 <= py_int (ymax row).

(** The box of a detection, truncated to whole pixels and clipped to an
    image of shape [(h, w)], contains the position [(y, x)]. *)
Definition in_clipped_box (h w : nat) (row : Row) (y x : nat) : Prop :=
  Z.max 0 (py_int (xmin row)) <= Z.of_nat x
    < Z.min (Z.of_nat w) (py_int (xmax row))
  /\ Z.max 0 (py_int (ymin row)) <= Z.of_nat y
    < Z.min (Z.of_nat h) (py_int (ymax row)).

(** The mask property for one image and one DetectionSet, with no
    condition on where the boxes lie. *)
Definition mask_blackens_clipped_boxes `{Externals} (image : Image)
    (predictions : DataFrame) : Prop :=
  exists out,
    (censor_objects image predictions "mask" []).1 = Ok out
    /\ forall y x p,
         pixel_at image y x = Some p ->
         ((exists row, row ∈ predictions
                       /\ in_clipped_box (length image) (shape_w image) row y x) ->
          pixel_at out y x = Some (0, 0, 0))
         /\ (~ (exists row, row ∈ predictions
                            /\ in_clipped_box (length image) (shape_w image) row y x) ->
             pixel_at out y x = Some p).

(** The order of the [xmin] column. *)
Definition xmin_le (a b : Row) : Prop := (xmin a <= xmin b)%Q.

(** [int] rounds toward zero: down on a non-negative number, up on a
    non-positive one. *)
Definition truncation_of (x : Q) (n : Z) : Prop :=
  ((0 <= x -> inject_Z n <= x < inject_Z n + 1)
   /\ (x <= 0 -> inject_Z n - 1 < x <= inject_Z n))%Q.

(** Rounding to the nearest integer, as the specification words the
    label: [n] is at most one half away from [x]. *)
Definition nearest_integer (x : Q) (n : Z) : Prop :=
  (Qabs (x - inject_Z n) <= 1 # 2)%Q.

(** The label property with rounding to the nearest integer, for one
    image and one DetectionSet. *)
Definition labels_round_to_nearest `{Externals} (image : Image)
    (predict : DataFrame) : Prop :=
  forall bbox text c,
    EvBoxLabel bbox text c ∈ (add_bboxs_on_img image predict []).2 ->
    exists row n,
      row ∈ predict
      /\ nearest_integer (confidence row * 100) n
      /\ text = cell_str (name row) +:+ ": " +:+ pretty n +:+ "%".

(** Whatever happens, [m] only appends events that satisfy [P]. *)
Definition only_emits {A} (P : event -> Prop) (m : M A) : Prop :=
  forall t, exists tr, (m t).2 = t ++ tr /\ Forall P tr.

(** An event other than a call of the model. *)
Definition not_predict (e : event) : Prop :=
  match e with
  | EvPredict _ _ => False
  | _ => True
  end.

(** The calls of [model.predict] in a trace, in order. *)
Definition predict_calls (t : trace) : list (YOLO * PredictArgs) :=
  omap (fun e => match e with
                 | EvPredict m args => Some (m, args)
                 | _ => None
                 end) t.

(** * Properties *)

(** ** The monad *)

Lemma bind_Ok {A B} (m : M A) (k : A -> M B) t a t' :
  m t = (Ok a, t') -> bind m k t = k a t'.
Proof. intros Hm. unfold bind. by rewrite Hm. Qed.

(** A loop whose body never raises and records [log a] runs to the end:
    it returns the fold of the state and has recorded one batch per
    element, in order. *)
Lemma for_each_log {A S} (l : list A) (body : S -> A -> M S)
    (step : S -> A -> S) (log : A -> trace) :
  (forall s a t, body s a t = (Ok (step s a), t ++ log a)) ->
  forall s t,
    for_each l body s t = (Ok (fold_left step l s), t ++ concat (map log l)).
Proof.
  intros Hbody. induction l as [|a l IH]; intros s t; simpl.
  - unfold ret. by rewrite app_nil_r.
  - erewrite bind_Ok by apply Hbody. rewrite IH. by rewrite <- app_assoc.
Qed.

(** ** The module namespace and the segment path *)

Lemma app_globals_model_sample_detect :
  app_globals !! "model_sample_detect"%string
  = Some (GModel (mkYOLO "./models/sample_model/best.pt")).
Proof. vm_compute. reflexivity. Qed.

Lemma app_globals_model_sample_segment :
  app_globals !! "model_sample_segment"%string = None.
Proof. vm_compute. reflexivity. Qed.

Section SegmentPath.
Context `{Externals}.

(** C10. For every input image, [segment_sample_model] raises
    [NameError] for [model_sample_segment] and calls no model: no
    statement of the module binds that name, while [model_sample_detect]
    is bound to the model loaded from the weights file. *)
Theorem segment_sample_model_unbound_name :
  (forall input_image t,
     segment_sample_model input_image t
     = (Raise (NameError "model_sample_segment"), t))
  /\ ("model_sample_segment"%string ∉ app_bindings.*1)
  /\ app_globals !! "model_sample_detect"%string
     = Some (GModel (mkYOLO "./models/sample_model/best.pt")).
Proof.
  split; [|split].
  - intros input_image t. unfold segment_sample_model, load_global.
    replace (app_globals !! "get_model_segment"%string)
      with (Some (GFunction "get_model_segment")) by (vm_compute; reflexivity).
    rewrite app_globals_model_sample_segment. reflexivity.
  - intros Hin. apply list_elem_of_In in Hin. simpl in Hin.
    repeat (destruct Hin as [Hin|Hin]; [discriminate Hin|]). exact Hin.
  - exact app_globals_model_sample_detect.
Qed.

End SegmentPath.

(** ** JSON mode *)

Lemma str_join_strings (sep : string) (names : list string) :
  str_join sep (map CStr names) = Ok (String.concat sep names).
Proof.
  induction names as [|s [|s' rest] IH]; [reflexivity..|].
  change (str_join sep (map CStr (s :: s' :: rest)))
    with (match str_join sep (map CStr (s' :: rest)) with
          | Ok r => Ok (s +:+ sep +:+ r)
          | Raise e => Raise e
          end).
  by rewrite IH.
Qed.

Section JsonMode.
Context `{Externals}.

(** C2. When the upload decodes and detection returns an empty
    DetectionSet, the JSON endpoint returns the dictionary whose only key
    is [message], bound to "No objects detected."; it has no
    [detect_objects] key. *)
Theorem img_object_detection_to_json_empty (file : bytes) (img : Image)
    (t t' : trace) :
  Image_open file = Ok img ->
  detect_sample_model img t = (Ok [], t') ->
  exists d,
    img_object_detection_to_json file t = (Ok (PyDict d), t')
    /\ d = [("message"%string, PyStr "No objects detected.")]
    /\ dict_keys d = ["message"%string]
    /\ dict_get d "detect_objects" = None
    /\ dict_get d "detect_objects_names" = None.
Proof.
  intros Hopen Hdet. eexists. split; [|done].
  unfold img_object_detection_to_json, get_image_from_bytes.
  erewrite bind_Ok by (unfold lift; by rewrite Hopen).
  erewrite bind_Ok by exact Hdet. reflexivity.
Qed.

(** C1. When the upload decodes and detection returns a non-empty
    DetectionSet whose class names are [names], the JSON endpoint returns
    the dictionary with [detect_objects_names] the names joined by a
    comma and a space in the order of the DetectionSet, and
    [detect_objects] the list of name/confidence records in that same
    order. *)
Theorem img_object_detection_to_json_nonempty (file : bytes) (img : Image)
    (predict : DataFrame) (names : list string) (t t' : trace) :
  Image_open file = Ok img ->
  detect_sample_model img t = (Ok predict, t') ->
  predict <> [] ->
  map name predict = map CStr names ->
  img_object_detection_to_json file t
  = (Ok (PyDict
           [("detect_objects_names"%string, PyStr (String.concat ", " names));
            ("detect_objects"%string,
             PyList (map (fun '(n, row) =>
                            PyDict [("name"%string, PyStr n);
                                    ("confidence"%string,
                                     PyFloat (json_float (confidence row)))])
                       (zip names predict)))]),
     t').
Proof.
  intros Hopen Hdet Hne Hnames.
  unfold img_object_detection_to_json, get_image_from_bytes.
  erewrite bind_Ok by (unfold lift; by rewrite Hopen).
  erewrite bind_Ok by exact Hdet.
  destruct predict as [|row0 rest0] eqn:Hp; [done|]. rewrite <- Hp in *.
  replace (length predict =? 0)%nat with false by (by rewrite Hp).
  assert (Hcol : map fst (map (fun row => (name row, confidence row)) predict)
                 = map name predict) by (rewrite map_map; by apply map_ext).
  rewrite Hcol.
  erewrite bind_Ok
    by (unfold lift; rewrite Hnames, str_join_strings; reflexivity).
  assert (Hrec : to_json_records (map (fun row => (name row, confidence row)) predict)
                 = map (fun '(n, row) =>
                          PyDict [("name"%string, PyStr n);
                                  ("confidence"%string,
                                   PyFloat (json_float (confidence row)))])
                     (zip names predict)).
  { clear -Hnames. unfold to_json_records. rewrite map_map.
    revert names Hnames.
    induction predict as [|row rest IH]; intros [|n names] Hnames;
      try discriminate; [reflexivity|].
    simpl in Hnames. injection Hnames as Hn Hrest.
    simpl. rewrite Hn. f_equal. by apply IH. }
  rewrite Hrec. reflexivity.
Qed.

End JsonMode.

(** On the busy scene the joined names follow the order of the
    DetectionSet, which is not the order of increasing [xmin]. *)
Example json_names_sample :
  (exists tr,
     img_object_detection_to_json (H := Sample.world) [1] []
     = (Ok (PyDict
              [("detect_objects_names"%string, PyStr "person, plate, person");
               ("detect_objects"%string,
                PyList
                  [PyDict [("name"%string, PyStr "person");
                           ("confidence"%string, PyFloat (15 # 16))];
                   PyDict [("name"%string, PyStr "plate");
                           ("confidence"%string, PyFloat (3 # 4))];
                   PyDict [("name"%string, PyStr "person");
                           ("confidence"%string, PyFloat (1 # 2))]])]), tr))
  /\ map name (sort_values_xmin (H := Sample.world) Sample.rows3)
     = [CStr "plate"; CStr "person"; CStr "person"].
Proof. split; [eexists|]; vm_compute; reflexivity. Qed.

Lemma img_object_detection_to_json_empty_witness :
  exists d,
    img_object_detection_to_json (H := Sample.world) [0] []
    = (Ok (PyDict d), [Sample.detect_call Sample.image64])
    /\ d = [("message"%string, PyStr "No objects detected.")]
    /\ dict_keys d = ["message"%string]
    /\ dict_get d "detect_objects" = None
    /\ dict_get d "detect_objects_names" = None.
Proof.
  apply (img_object_detection_to_json_empty (H := Sample.world) [0]
           Sample.image64); reflexivity.
Defined.

Lemma img_object_detection_to_json_nonempty_witness :
  img_object_detection_to_json (H := Sample.world) [1] []
  = (Ok (PyDict
           [("detect_objects_names"%string,
             PyStr (String.concat ", " ["person"; "plate"; "person"]%string));
            ("detect_objects"%string,
             PyList (map (fun '(n, row) =>
                            PyDict [("name"%string, PyStr n);
                                    ("confidence"%string,
                                     PyFloat (@json_float Sample.world (confidence row)))])
                       (zip ["person"; "plate"; "person"]%string Sample.rows3)))]),
     [Sample.detect_call Sample.image_busy]).
Proof.
  apply (img_object_detection_to_json_nonempty (H := Sample.world) [1]
           Sample.image_busy Sample.rows3);
    [reflexivity | vm_compute; reflexivity | discriminate | reflexivity].
Defined.

(** ** The censor transform *)

Lemma for_each_pure {A S} (l : list A) (body : S -> A -> M S) (step : S -> A -> S) :
  (forall s a t, body s a t = (Ok (step s a), t)) ->
  forall s t, for_each l body s t = (Ok (fold_left step l s), t).
Proof.
  intros Hbody. induction l as [|a l IH]; intros s t; simpl; [done|].
  erewrite bind_Ok by apply Hbody. apply IH.
Qed.

Lemma flip_pixel_involutive (p : pixel) : flip_pixel (flip_pixel p) = p.
Proof. by destruct p as [[c0 c1] c2]. Qed.

Lemma flip_channels_involutive (arr : ndarray) :
  flip_channels (flip_channels arr) = arr.
Proof.
  unfold flip_channels. rewrite <- list_fmap_compose.
  rewrite <- (list_fmap_id arr) at 2. apply list_fmap_ext. intros _ row _.
  simpl. rewrite <- list_fmap_compose.
  rewrite <- (list_fmap_id row) at 2. apply list_fmap_ext. intros _ p _.
  apply flip_pixel_involutive.
Qed.

Lemma pixel_at_flip_channels (arr : ndarray) (y x : nat) :
  pixel_at (flip_channels arr) y x = flip_pixel <$> pixel_at arr y x.
Proof.
  unfold pixel_at, flip_channels. rewrite list_lookup_fmap.
  destruct (arr !! y) as [row|]; simpl; [|done]. apply list_lookup_fmap.
Qed.

Lemma pixel_at_set_slice_scalar (arr : ndarray) (y1 y2 x1 x2 v : Z) (y x : nat) :
  pixel_at (set_slice_scalar arr y1 y2 x1 x2 v) y x
  = (fun p => if in_slice y1 y2 (length arr) y && in_slice x1 x2 (shape_w arr) x
              then (v, v, v) else p) <$> pixel_at arr y x.
Proof.
  unfold pixel_at, set_slice_scalar. rewrite list_lookup_imap.
  destruct (arr !! y) as [row|]; simpl; [|done].
  destruct (in_slice y1 y2 (length arr) y); simpl.
  - rewrite list_lookup_imap. by destruct (row !! x).
  - by destruct (row !! x).
Qed.

Lemma length_set_slice_scalar (arr : ndarray) (y1 y2 x1 x2 v : Z) :
  length (set_slice_scalar arr y1 y2 x1 x2 v) = length arr.
Proof. apply length_imap. Qed.

Lemma shape_w_set_slice_scalar (arr : ndarray) (y1 y2 x1 x2 v : Z) :
  shape_w (set_slice_scalar arr y1 y2 x1 x2 v) = shape_w arr.
Proof.
  destruct arr as [|row rest]; [done|]. unfold set_slice_scalar. simpl.
  destruct (in_slice y1 y2 _ 0); [apply length_imap | done].
Qed.

(** On an axis of length [n], a slice with non-negative ends selects the
    positions between them. *)
Lemma in_slice_nonneg (a b : Z) (n k : nat) :
  0 <= a -> 0 <= b -> (k < n)%nat ->
  in_slice a b n k = (a <=? Z.of_nat k) && (Z.of_nat k <? b).
Proof.
  intros Ha Hb Hk. unfold in_slice, slice_index.
  destruct (Z.ltb_spec a 0); [lia|]. destruct (Z.ltb_spec b 0); [lia|].
  apply eq_true_iff_eq. rewrite !andb_true_iff.
  rewrite Nat.leb_le, Nat.ltb_lt, Z.leb_le, Z.ltb_lt. lia.
Qed.

Lemma pixel_at_bounds (arr : ndarray) (y x : nat) (p : pixel) :
  rectangular arr -> pixel_at arr y x = Some p ->
  (y < length arr)%nat /\ (x < shape_w arr)%nat.
Proof.
  unfold rectangular, pixel_at. intros Hrect Hp.
  destruct (arr !! y) as [row|] eqn:Hrow; [|done]. simpl in Hp.
  split; [by eapply lookup_lt_Some|].
  rewrite Forall_lookup in Hrect. rewrite <- (Hrect _ _ Hrow).
  by eapply lookup_lt_Some.
Qed.

Lemma fold_mask_row (predictions : DataFrame) :
  forall arr : ndarray,
    length (fold_left mask_row predictions arr) = length arr
    /\ shape_w (fold_left mask_row predictions arr) = shape_w arr
    /\ forall y x,
         pixel_at (fold_left mask_row predictions arr) y x
         = (fun p => if existsb (fun row => sliced (length arr) (shape_w arr) row y x)
                          predictions
                     then (0, 0, 0) else p) <$> pixel_at arr y x.
Proof.
  induction predictions as [|row rest IH]; intros arr; simpl.
  - repeat split. intros y x. by destruct (pixel_at arr y x).
  - destruct (IH (mask_row arr row)) as (Hlen & Hw & Hpix).
    assert (Hl : length (mask_row arr row) = length arr)
      by apply length_set_slice_scalar.
    assert (Hs : shape_w (mask_row arr row) = shape_w arr)
      by apply shape_w_set_slice_scalar.
    rewrite Hl in Hlen, Hpix. rewrite Hs in Hw, Hpix.
    repeat split; [done..|]. intros y x.
    rewrite Hpix. unfold mask_row. rewrite pixel_at_set_slice_scalar.
    destruct (pixel_at arr y x) as [p|]; simpl; [|done].
    unfold sliced at 2.
    destruct (in_slice _ _ (length arr) y && in_slice _ _ (shape_w arr) x); simpl;
      [|done].
    by destruct (existsb _ rest).
Qed.

Section Censor.
Context `{Externals}.

(** C8. With an empty DetectionSet, [censor_objects] returns the input
    image unchanged, whatever the method, and calls nothing. *)
Theorem censor_objects_empty (image : Image) (method : string) (t : trace) :
  censor_objects image [] method t = (Ok image, t).
Proof.
  change (censor_objects image [] method t)
    with (Ok (flip_channels (flip_channels image)), t).
  by rewrite flip_channels_involutive.
Qed.

(** C4. With a method other than ['blur'] and ['mask'], [censor_objects]
    raises nothing and returns the input image unchanged, for every
    DetectionSet. *)
Theorem censor_objects_unknown_method (image : Image) (predictions : DataFrame)
    (method : string) (t : trace) :
  method <> "blur"%string ->
  method <> "mask"%string ->
  censor_objects image predictions method t = (Ok image, t).
Proof.
  intros Hblur Hmask. unfold censor_objects.
  apply String.eqb_neq in Hblur, Hmask. rewrite Hblur, Hmask.
  erewrite bind_Ok by (apply (for_each_pure _ _ (fun arr _ => arr)); done).
  unfold ret. f_equal. f_equal.
  assert (Hfold : forall arr : ndarray,
             fold_left (fun arr (_ : Row) => arr) predictions arr = arr)
    by (induction predictions; simpl; auto).
  rewrite Hfold. apply flip_channels_involutive.
Qed.

(** C3, amended. When no truncated corner coordinate of any box is
    negative, [censor_objects] with [method = 'mask'] raises nothing; in
    its result every pixel of the image that lies in the truncated box of
    some detection is (0,0,0), every other pixel is the input pixel, and
    the shape is that of the input. *)
Theorem censor_objects_mask (image : Image) (predictions : DataFrame) (t : trace) :
  rectangular image ->
  Forall corners_nonneg predictions ->
  exists out,
    censor_objects image predictions "mask" t = (Ok out, t)
    /\ forall y x,
         pixel_at out y x
         = (fun p => if existsb (fun row => covers row y x) predictions
                     then (0, 0, 0) else p) <$> pixel_at image y x.
Proof.
  intros Hrect Hnonneg. eexists. split.
  - unfold censor_objects. simpl String.eqb.
    erewrite bind_Ok by (apply (for_each_pure _ _ mask_row); done).
    reflexivity.
  - intros y x.
    destruct (fold_mask_row predictions (flip_channels image)) as (_ & _ & Hpix).
    rewrite pixel_at_flip_channels, Hpix, pixel_at_flip_channels.
    destruct (pixel_at image y x) as [p|] eqn:Hp; simpl; [|done].
    destruct (pixel_at_bounds _ _ _ _ Hrect Hp) as [Hy Hx].
    assert (Hlen : length (flip_channels image) = length image)
      by apply length_fmap.
    assert (Hw : shape_w (flip_channels image) = shape_w image)
      by (destruct image; [done | apply length_fmap]).
    rewrite Hlen, Hw.
    assert (Hsame : existsb (fun row => sliced (length image) (shape_w image) row y x)
                      predictions
                    = existsb (fun row => covers row y x) predictions).
    { clear -Hnonneg Hy Hx. induction Hnonneg as [|row rest Hrow _ IH]; simpl; [done|].
      rewrite IH. f_equal. destruct Hrow as (Hx1 & Hy1 & Hx2 & Hy2).
      unfold sliced, covers. by rewrite !in_slice_nonneg. }
    rewrite Hsame.
    destruct (existsb (fun row => covers row y x) predictions); [reflexivity|].
    by rewrite flip_pixel_involutive.
Qed.

End Censor.

(** A box that starts three pixels left of the image: the slice
    [x1:x2] with [x1 = -3] counts from the right edge, so the pixel in
    the top left corner, inside the clipped box, keeps its colour. *)
Lemma censor_objects_mask_negative_corner :
  ~ mask_blackens_clipped_boxes (H := Sample.world) Sample.image64
      [mkRow 0 (-3) 0 5 2 (3 # 4) 0 (CStr "person")].
Proof.
  intros (out & Hout & Hpix).
  vm_compute in Hout. injection Hout as <-.
  destruct (Hpix 0%nat 0%nat (0, 1, 2) eq_refl) as [Hin _].
  assert (Hblack : pixel_at
            [[(0, 1, 2); (1, 2, 3); (2, 3, 4); (0, 0, 0); (0, 0, 0); (5, 6, 7)];
             [(10, 11, 12); (11, 12, 13); (12, 13, 14); (0, 0, 0); (0, 0, 0);
              (15, 16, 17)];
             [(20, 21, 22); (21, 22, 23); (22, 23, 24); (23, 24, 25);
              (24, 25, 26); (25, 26, 27)];
             [(30, 31, 32); (31, 32, 33); (32, 33, 34); (33, 34, 35);
              (34, 35, 36); (35, 36, 37)]] 0 0 = Some (0, 0, 0)).
  { apply Hin. eexists. split; [apply list_elem_of_here|].
    vm_compute. repeat split; discriminate. }
  discriminate Hblack.
Qed.

Lemma censor_objects_unknown_method_witness :
  "pixelate"%string <> "blur"%string
  /\ "pixelate"%string <> "mask"%string
  /\ censor_objects (H := Sample.world) Sample.image64 Sample.rows3 "pixelate" []
     = (Ok Sample.image64, []).
Proof.
  split; [discriminate|]. split; [discriminate|].
  apply (censor_objects_unknown_method (H := Sample.world)); discriminate.
Defined.

Lemma censor_objects_mask_witness :
  rectangular Sample.image64
  /\ Forall corners_nonneg Sample.rows3
  /\ exists out,
       censor_objects (H := Sample.world) Sample.image64 Sample.rows3 "mask" []
       = (Ok out, [])
       /\ forall y x,
            pixel_at out y x
            = (fun p => if existsb (fun row => covers row y x) Sample.rows3
                        then (0, 0, 0) else p) <$> pixel_at Sample.image64 y x.
Proof.
  assert (Hrect : rectangular Sample.image64) by (repeat constructor).
  assert (Hbox : Forall corners_nonneg Sample.rows3)
    by (repeat constructor; vm_compute; discriminate).
  split; [exact Hrect|]. split; [exact Hbox|].
  exact (censor_objects_mask (H := Sample.world) Sample.image64 Sample.rows3 []
           Hrect Hbox).
Defined.

(** The mask on the busy scene: the three boxes are black, the rest of
    the image is as it was. *)
Example censor_objects_mask_sample :
  censor_objects (H := Sample.world) Sample.image64 Sample.rows3 "mask" []
  = (Ok [[(0, 0, 0); (0, 0, 0); (2, 3, 4); (3, 4, 5); (4, 5, 6); (5, 6, 7)];
         [(0, 0, 0); (0, 0, 0); (0, 0, 0); (13, 14, 15); (0, 0, 0); (0, 0, 0)];
         [(20, 21, 22); (21, 22, 23); (0, 0, 0); (23, 24, 25); (0, 0, 0);
          (0, 0, 0)];
         [(30, 31, 32); (31, 32, 33); (0, 0, 0); (33, 34, 35); (34, 35, 36);
          (35, 36, 37)]], []).
Proof. vm_compute. reflexivity. Qed.

(** ** The annotation renderer *)

Section Sort.
Context `{Externals}.

Lemma insert_by_xmin_perm (keys : list Q) (r : nat * Row) (l : list (nat * Row)) :
  Permutation (insert_by_xmin keys r l) (r :: l).
Proof.
  induction l as [|r' l IH]; simpl; [done|].
  destruct (argsort_before keys r' r); [|done].
  rewrite IH. apply perm_swap.
Qed.

Lemma argsort_before_true (keys : list Q) (a b : nat * Row) :
  argsort_before keys a b = true -> xmin_le a.2 b.2.
Proof.
  unfold argsort_before, xmin_le.
  destruct (Qle_bool (xmin a.2) (xmin b.2)) eqn:Hab; [|done].
  intros _. by apply Qle_bool_iff.
Qed.

Lemma argsort_before_false (keys : list Q) (a b : nat * Row) :
  argsort_before keys a b = false -> xmin_le b.2 a.2.
Proof.
  unfold argsort_before, xmin_le.
  destruct (Qle_bool (xmin a.2) (xmin b.2)) eqn:Hab.
  - destruct (Qle_bool (xmin b.2) (xmin a.2)) eqn:Hba; [|done].
    intros _. by apply Qle_bool_iff.
  - intros _. apply Qlt_le_weak, Qnot_le_lt. intros Hle.
    apply Qle_bool_iff in Hle. congruence.
Qed.

Lemma insert_by_xmin_sorted (keys : list Q) (r : nat * Row) (l : list (nat * Row)) :
  StronglySorted (fun a b => xmin_le a.2 b.2) l ->
  StronglySorted (fun a b => xmin_le a.2 b.2) (insert_by_xmin keys r l).
Proof.
  induction 1 as [|r' l Hsorted IH Hall]; simpl.
  - by repeat constructor.
  - destruct (argsort_before keys r' r) eqn:Hcmp.
    + apply argsort_before_true in Hcmp. constructor; [done|].
      rewrite (insert_by_xmin_perm keys r l). by constructor.
    + apply argsort_before_false in Hcmp.
      constructor; [by constructor|]. constructor; [done|].
      eapply Forall_impl; [exact Hall|]. intros r'' Hle. unfold xmin_le in *.
      eapply Qle_trans; [exact Hcmp | exact Hle].
Qed.

Lemma sort_values_xmin_from (keys : list Q) (rows acc : list (nat * Row)) :
  StronglySorted (fun a b => xmin_le a.2 b.2) acc ->
  StronglySorted (fun a b => xmin_le a.2 b.2)
    (fold_left (fun acc r => insert_by_xmin keys r acc) rows acc)
  /\ Permutation (fold_left (fun acc r => insert_by_xmin keys r acc) rows acc)
       (acc ++ rows).
Proof.
  revert acc. induction rows as [|r rows IH]; intros acc Hacc; simpl.
  - by rewrite app_nil_r.
  - destruct (IH (insert_by_xmin keys r acc)) as [Hs Hp];
      [by apply insert_by_xmin_sorted|].
    split; [done|]. rewrite Hp, insert_by_xmin_perm.
    simpl. apply Permutation_middle.
Qed.

Lemma snd_imap_pair (predict : DataFrame) : (imap pair predict).*2 = predict.
Proof.
  rewrite fmap_imap. transitivity (imap (const id) predict).
  - by apply imap_ext.
  - rewrite imap_const. apply list_fmap_id.
Qed.

Lemma sort_values_xmin_sorted (predict : DataFrame) :
  StronglySorted xmin_le (sort_values_xmin predict).
Proof.
  unfold sort_values_xmin.
  destruct (sort_values_xmin_from (map xmin predict) (imap pair predict) [])
    as [Hsorted _]; [constructor|].
  induction Hsorted as [|a l _ IH Hall]; simpl; constructor; [done|].
  by apply Forall_fmap.
Qed.

Lemma sort_values_xmin_perm (predict : DataFrame) :
  Permutation (sort_values_xmin predict) predict.
Proof.
  unfold sort_values_xmin.
  destruct (sort_values_xmin_from (map xmin predict) (imap pair predict) [])
    as [_ Hperm]; [constructor|].
  rewrite <- (snd_imap_pair predict) at 2. by apply fmap_Permutation.
Qed.

End Sort.

Lemma py_int_truncation (x : Q) : truncation_of x (py_int x).
Proof.
  destruct x as [a b]. unfold truncation_of, py_int. cbn [Qnum Qden].
  pose proof (Z.quot_rem' a (Z.pos b)) as Hqr.
  set (q := a ÷ Z.pos b) in *. set (r := Z.rem a (Z.pos b)) in *.
  unfold Qle, Qlt, Qminus, Qplus, Qopp, inject_Z. cbn [Qnum Qden].
  rewrite ?Z.mul_1_r, ?Pos.mul_1_r.
  split; intros Ha.
  - pose proof (Z.rem_bound_pos a (Z.pos b)) as Hr. fold r in Hr. nia.
  - pose proof (Zquot.Zrem_lt_neg_pos a (Z.pos b)) as Hr. fold r in Hr. nia.
Qed.

Section Annotate.
Context `{Externals}.

(** The renderer never raises: it paints one label per row of the sorted
    frame and records the calls in that order. *)
Lemma add_bboxs_on_img_run (image : Image) (predict : DataFrame) (t : trace) :
  add_bboxs_on_img image predict t
  = (Ok (fold_left
           (fun im row =>
              Annotator_box_label im [xmin row; ymin row; xmax row; ymax row]
                (name_field (numeric_frame predict) (name row) +:+ ": "
                   +:+ pretty (py_int (confidence row * 100)) +:+ "%")
                (colors (class row) true))
           (sort_values_xmin predict) image),
     t ++ map (fun row =>
                 EvBoxLabel [xmin row; ymin row; xmax row; ymax row]
                   (name_field (numeric_frame predict) (name row) +:+ ": "
                      +:+ pretty (py_int (confidence row * 100)) +:+ "%")
                   (colors (class row) true))
            (sort_values_xmin predict)).
Proof.
  unfold add_bboxs_on_img.
  erewrite bind_Ok.
  2: { apply (for_each_log _ _
         (fun im row =>
            Annotator_box_label im [xmin row; ymin row; xmax row; ymax row]
              (name_field (numeric_frame predict) (name row) +:+ ": "
                 +:+ pretty (py_int (confidence row * 100)) +:+ "%")
              (colors (class row) true))
         (fun row =>
            [EvBoxLabel [xmin row; ymin row; xmax row; ymax row]
               (name_field (numeric_frame predict) (name row) +:+ ": "
                  +:+ pretty (py_int (confidence row * 100)) +:+ "%")
               (colors (class row) true)])).
       reflexivity. }
  unfold ret. do 2 f_equal.
  induction (sort_values_xmin predict) as [|r l IH]; simpl; [done|]. by rewrite IH.
Qed.

(** C7. For every image and DetectionSet there is one draw order, a
    rearrangement of the DetectionSet in which [xmin] never decreases;
    on every call, whatever was drawn before, the renderer draws the
    boxes in exactly that order and returns the image obtained by
    painting them in that order. *)
Theorem add_bboxs_on_img_draw_order (image : Image) (predict : DataFrame) :
  exists (order : DataFrame) (text : Row -> string),
    Permutation order predict
    /\ StronglySorted xmin_le order
    /\ forall t : trace,
         add_bboxs_on_img image predict t
         = (Ok (fold_left
                  (fun im row =>
                     Annotator_box_label im
                       [xmin row; ymin row; xmax row; ymax row] (text row)
                       (colors (class row) true)) order image),
            t ++ map (fun row =>
                        EvBoxLabel [xmin row; ymin row; xmax row; ymax row]
                          (text row) (colors (class row) true)) order).
Proof.
  exists (sort_values_xmin predict).
  exists (fun row => name_field (numeric_frame predict) (name row) +:+ ": "
                       +:+ pretty (py_int (confidence row * 100)) +:+ "%").
  split; [apply sort_values_xmin_perm|].
  split; [apply sort_values_xmin_sorted|].
  intros t. apply add_bboxs_on_img_run.
Qed.

(** C6, amended. For a DetectionSet whose names are strings, every
    label the renderer draws belongs to a detection of the DetectionSet
    and reads: the class name, a colon and a space, the integer obtained
    from [confidence*100] by dropping its fractional part, and a percent
    sign. *)
Theorem add_bboxs_on_img_label_text (image : Image) (predict : DataFrame)
    (t : trace) :
  Forall (fun row => exists s, name row = CStr s) predict ->
  exists im tr,
    add_bboxs_on_img image predict t = (Ok im, t ++ tr)
    /\ Forall (fun e =>
                 exists row s n,
                   row ∈ predict
                   /\ name row = CStr s
                   /\ truncation_of (confidence row * 100) n
                   /\ e = EvBoxLabel [xmin row; ymin row; xmax row; ymax row]
                            (s +:+ ": " +:+ pretty n +:+ "%")
                            (colors (class row) true)) tr.
Proof.
  intros Hnames. do 2 eexists. split; [apply add_bboxs_on_img_run|].
  apply Forall_map. apply Forall_forall. intros row Hin.
  assert (Hrow : row ∈ predict).
  { apply list_elem_of_In. apply list_elem_of_In in Hin.
    by rewrite <- (sort_values_xmin_perm predict). }
  rewrite Forall_forall in Hnames. destruct (Hnames row Hrow) as [s Hs].
  exists row, s, (py_int (confidence row * 100)).
  split; [done|]. split; [done|]. split; [apply py_int_truncation|].
  by rewrite Hs.
Qed.

End Annotate.

(** A detection with confidence 0.9375 is labelled 93%, while the
    integer nearest to 93.75 is 94. *)
Lemma add_bboxs_on_img_label_truncates :
  ~ labels_round_to_nearest (H := Sample.world) Sample.image64
      [mkRow 0 4 1 6 3 (15 # 16) 0 (CStr "person")].
Proof.
  intros Hclaim.
  destruct (Hclaim [4; 1; 6; 3]%Q "person: 93%"%string (0, 0, 1))
    as (row & n & Hin & Hnear & Htext).
  { vm_compute. apply list_elem_of_here. }
  apply list_elem_of_singleton in Hin. subst row.
  unfold nearest_integer in Hnear. apply Qabs_Qle_condition in Hnear.
  destruct Hnear as [Hlo Hhi].
  unfold Qle, Qminus, Qplus, Qopp, Qmult, inject_Z in Hlo, Hhi.
  cbn [Qnum Qden confidence] in Hlo, Hhi.
  assert (Hn : n = 94) by lia. subst n.
  vm_compute in Htext. discriminate Htext.
Qed.

Lemma add_bboxs_on_img_label_text_witness :
  Forall (fun row => exists s, name row = CStr s) Sample.rows3
  /\ exists im tr,
       add_bboxs_on_img (H := Sample.world) Sample.image_busy Sample.rows3 []
       = (Ok im, [] ++ tr)
       /\ Forall (fun e =>
                    exists row s n,
                      row ∈ Sample.rows3
                      /\ name row = CStr s
                      /\ truncation_of (confidence row * 100) n
                      /\ e = EvBoxLabel [xmin row; ymin row; xmax row; ymax row]
                               (s +:+ ": " +:+ pretty n +:+ "%")
                               (@colors Sample.world (class row) true)) tr.
Proof.
  assert (Hnames : Forall (fun row => exists s, name row = CStr s) Sample.rows3)
    by (repeat constructor; by eexists).
  split; [exact Hnames|].
  exact (add_bboxs_on_img_label_text (H := Sample.world) Sample.image_busy
           Sample.rows3 [] Hnames).
Defined.

(** In a frame without any string name the rows are widened to float64
    and the class id is printed as a float; rows of equal [xmin] come in
    the order of the sort, here the later row first. *)
Example add_bboxs_on_img_numeric_sample :
  (add_bboxs_on_img (H := Sample.world) Sample.image_busy
     [mkRow 0 0 0 2 2 (3 # 4) 1 (CInt 1);
      mkRow 1 0 1 3 3 (15 # 16) 0 (CInt 0)] []).2
  = [EvBoxLabel [0; 1; 3; 3]%Q "0.0: 93%" (0, 0, 1);
     EvBoxLabel [0; 0; 2; 2]%Q "1.0: 75%" (1, 1, 1)].
Proof. vm_compute. reflexivity. Qed.

(** The labels drawn on the busy scene, leftmost box first. *)
Example add_bboxs_on_img_sample :
  (add_bboxs_on_img (H := Sample.world) Sample.image_busy Sample.rows3 []).2
  = [EvBoxLabel [0; 0; 2; 2]%Q "plate: 75%" (1, 1, 1);
     EvBoxLabel [5 # 2; 1; 7 # 2; 4]%Q "person: 50%" (0, 0, 1);
     EvBoxLabel [4; 1; 6; 3]%Q "person: 93%" (0, 0, 1)].
Proof. vm_compute. reflexivity. Qed.

(** ** What a computation adds to the trace *)

Lemma only_emits_ret {A} P (a : A) : only_emits P (ret a).
Proof. intros t. exists []. by rewrite app_nil_r. Qed.

Lemma only_emits_raise {A} P (e : exn) : only_emits P (raise (A := A) e).
Proof. intros t. exists []. by rewrite app_nil_r. Qed.

Lemma only_emits_lift {A} P (r : result A) : only_emits P (lift r).
Proof. intros t. exists []. by rewrite app_nil_r. Qed.

Lemma only_emits_emit (P : event -> Prop) (e : event) :
  P e -> only_emits P (emit e).
Proof. intros He t. exists [e]. by repeat constructor. Qed.

Lemma only_emits_bind {A B} P (m : M A) (k : A -> M B) :
  only_emits P m -> (forall a, only_emits P (k a)) -> only_emits P (bind m k).
Proof.
  intros Hm Hk t. destruct (Hm t) as (tr1 & Ht1 & Hall1). unfold bind.
  destruct (m t) as [[a|e] t1]; simpl in Ht1; subst t1.
  - destruct (Hk a (t ++ tr1)) as (tr2 & Ht2 & Hall2).
    exists (tr1 ++ tr2). rewrite Ht2, app_assoc. split; [done|].
    by apply Forall_app.
  - by exists tr1.
Qed.

Lemma only_emits_for_each {A S} P (l : list A) (body : S -> A -> M S) :
  (forall s a, only_emits P (body s a)) ->
  forall s, only_emits P (for_each l body s).
Proof.
  intros Hbody. induction l as [|a l IH]; intros s; simpl.
  - apply only_emits_ret.
  - apply only_emits_bind; [apply Hbody | apply IH].
Qed.

Create HintDb emits.
#[export] Hint Resolve only_emits_ret only_emits_raise only_emits_lift : emits.

Lemma predict_calls_app (t1 t2 : trace) :
  predict_calls (t1 ++ t2) = predict_calls t1 ++ predict_calls t2.
Proof. apply omap_app. Qed.

Lemma predict_calls_not_predict (tr : trace) :
  Forall not_predict tr -> predict_calls tr = [].
Proof.
  induction 1 as [|e tr He _ IH]; [done|]. by destruct e.
Qed.

Ltac emits_step :=
  first
    [ solve [auto with emits]
    | apply only_emits_emit; exact I
    | apply only_emits_bind; [|intro]
    | apply only_emits_for_each; intros
    | match goal with
      | |- only_emits _ (if ?b then _ else _) => destruct b
      | |- only_emits _ (match ?x with _ => _ end) => destruct x
      end ].

Section Modes.
Context `{Externals}.

Lemma draw_text_not_predict im xy text font fill :
  only_emits not_predict (draw_text im xy text font fill).
Proof. unfold draw_text. repeat emits_step. Qed.

Lemma add_bboxs_on_img_not_predict image predict :
  only_emits not_predict (add_bboxs_on_img image predict).
Proof. unfold add_bboxs_on_img, box_label. repeat emits_step. Qed.

Lemma censor_objects_not_predict image predictions method :
  only_emits not_predict (censor_objects image predictions method).
Proof. unfold censor_objects. repeat emits_step. Qed.

(** Detection calls the detect model once, with these arguments, whether
    or not the call succeeds. *)
Lemma detect_sample_model_trace (img : Image) (t : trace) :
  (detect_sample_model img t).2
  = t ++ [EvPredict (mkYOLO "./models/sample_model/best.pt")
            {| imgsz := 768; source := img; conf := 1 # 2; save := false;
               augment := false; flipud := 0; fliplr := 0; mosaic := 0 |}].
Proof.
  unfold detect_sample_model, load_global.
  replace (app_globals !! "get_model_predict"%string)
    with (Some (GFunction "get_model_predict")) by (vm_compute; reflexivity).
  rewrite app_globals_model_sample_detect.
  unfold get_model_predict, model_predict, transform_predict_to_df.
  unfold bind, ret, raise, emit, lift, as_model. simpl.
  destruct (YOLO_predict _ _) as [[|boxes rest]|e]; reflexivity.
Qed.

Ltac endpoint_predict_calls file t :=
  unfold get_image_from_bytes;
  unfold bind at 1; unfold lift at 1;
  destruct (Image_open file) as [img|e]; cbn [snd];
  [|by rewrite app_nil_r];
  let Hd := fresh "Hd" in
  pose proof (detect_sample_model_trace img t) as Hd;
  unfold bind at 1;
  destruct (detect_sample_model img t) as [[df|e] t1]; cbn [snd] in Hd |- *;
  subst t1; [|by rewrite predict_calls_app];
  match goal with
  | |- context [(?m (t ++ ?c)).2] =>
      let Hq := fresh "Hq" in
      let tr := fresh "tr" in
      let Htr := fresh "Htr" in
      let Hall := fresh "Hall" in
      assert (Hq : only_emits not_predict m);
      [| destruct (Hq (t ++ c)) as (tr & Htr & Hall);
         rewrite Htr, !predict_calls_app, (predict_calls_not_predict tr Hall);
         simpl; by rewrite app_nil_r ]
  end.

(** C9. Each endpoint, on every upload and after any history, calls
    [model.predict] exactly once when the upload decodes and not at all
    when it does not; the call is on the detect model, with input size
    768, confidence threshold 0.5, augmentation off and saving off. *)
Theorem endpoints_call_detect_model (file : bytes) (t : trace) :
  let calls :=
    match Image_open file with
    | Ok img =>
        [(mkYOLO "./models/sample_model/best.pt",
          {| imgsz := 768; source := img; conf := 1 # 2; save := false;
             augment := false; flipud := 0; fliplr := 0; mosaic := 0 |})]
    | Raise _ => []
    end in
  predict_calls (img_object_detection_to_json file t).2
  = predict_calls t ++ calls
  /\ predict_calls (img_object_detection_to_img file t).2
     = predict_calls t ++ calls
  /\ predict_calls (img_object_detection_to_censored_img file t).2
     = predict_calls t ++ calls.
Proof.
  split; [|split].
  - unfold img_object_detection_to_json. endpoint_predict_calls file t.
    repeat emits_step.
  - unfold img_object_detection_to_img. endpoint_predict_calls file t.
    repeat first [ apply draw_text_not_predict
                 | apply add_bboxs_on_img_not_predict
                 | emits_step ].
  - unfold img_object_detection_to_censored_img. endpoint_predict_calls file t.
    repeat first [ apply draw_text_not_predict
                 | apply censor_objects_not_predict
                 | emits_step ].
Qed.

End Modes.

(** ** Censored-image mode *)

Section CensoredMode.
Context `{Externals}.

(** C5. When the upload decodes and detection succeeds: on an empty
    DetectionSet the censored-image endpoint does exactly what the
    annotated-image endpoint does, and once the font is loaded that is to
    draw the text "NO OBJECTS DETECTED." twenty times in black and then
    once in orange at (20, 20) and to return the encoded image; on a
    non-empty DetectionSet it returns the encoding of
    [censor_objects] run with method ['blur'], or raises what that
    raises. *)
Theorem img_object_detection_to_censored_img_modes (file : bytes) (img : Image)
    (predict : DataFrame) (t t' : trace) :
  Image_open file = Ok img ->
  detect_sample_model img t = (Ok predict, t') ->
  (predict = [] ->
   img_object_detection_to_censored_img file t
   = img_object_detection_to_img file t
   /\ forall font,
        ImageFont_truetype "arial.ttf" 15 = Ok font ->
        exists canvas outline,
          img_object_detection_to_censored_img file t
          = (Ok (mkStreamingResponse
                   (get_bytes_from_image
                      (ImageDraw_text canvas (20, 20) "NO OBJECTS DETECTED."
                         font (inl (255, 165, 0))))
                   "image/jpeg"),
             t' ++ outline
                ++ [EvText (20, 20) "NO OBJECTS DETECTED." font
                      (inl (255, 165, 0))])
          /\ length outline = 20%nat
          /\ Forall (fun e => exists xy,
                       e = EvText xy "NO OBJECTS DETECTED." font (inr "black"%string))
               outline)
  /\ (predict <> [] ->
      img_object_detection_to_censored_img file t
      = match censor_objects img predict "blur" t' with
        | (Ok censored_image, t'') =>
            (Ok (mkStreamingResponse (get_bytes_from_image censored_image)
                   "image/jpeg"), t'')
        | (Raise e, t'') => (Raise e, t'')
        end).
Proof.
  intros Hopen Hdet. split.
  - intros ->. split.
    + unfold img_object_detection_to_censored_img, img_object_detection_to_img,
        get_image_from_bytes.
      unfold bind, lift. rewrite Hopen. cbv beta iota. rewrite Hdet.
      reflexivity.
    + intros font Hfont.
      unfold img_object_detection_to_censored_img, get_image_from_bytes.
      erewrite bind_Ok by (unfold lift; by rewrite Hopen).
      erewrite bind_Ok by exact Hdet.
      cbn [length Nat.eqb].
      erewrite bind_Ok by (unfold lift; by rewrite Hfont).
      change (py_range (-2) 3) with [-2; -1; 0; 1; 2].
      eexists.
      exists (concat
                (map (fun adj =>
                        [EvText (20 + adj, 20) "NO OBJECTS DETECTED." font
                           (inr "black"%string);
                         EvText (20, 20 + adj) "NO OBJECTS DETECTED." font
                           (inr "black"%string);
                         EvText (20 + adj, 20 + adj) "NO OBJECTS DETECTED." font
                           (inr "black"%string);
                         EvText (20 - adj, 20 - adj) "NO OBJECTS DETECTED." font
                           (inr "black"%string)])
                   [-2; -1; 0; 1; 2])).
      split; [|split; [reflexivity | repeat constructor; eexists; reflexivity]].
      unfold draw_text, bind, emit, ret. cbn [for_each]. unfold bind, ret.
      refine (f_equal2 pair _ _); [reflexivity|].
      rewrite <- !app_assoc. reflexivity.
  - intros Hne.
    unfold img_object_detection_to_censored_img, get_image_from_bytes.
    erewrite bind_Ok by (unfold lift; by rewrite Hopen).
    erewrite bind_Ok by exact Hdet.
    destruct predict as [|row rest]; [done|]. cbn [length Nat.eqb].
    reflexivity.
Qed.

End CensoredMode.

Lemma img_object_detection_to_censored_img_modes_witness :
  Sample.rows3 <> []
  /\ img_object_detection_to_censored_img (H := Sample.world) [1] []
     = match censor_objects (H := Sample.world) Sample.image_busy Sample.rows3
               "blur" [Sample.detect_call Sample.image_busy] with
       | (Ok censored_image, t'') =>
           (Ok (mkStreamingResponse
                  (get_bytes_from_image (H := Sample.world) censored_image)
                  "image/jpeg"), t'')
       | (Raise e, t'') => (Raise e, t'')
       end.
Proof.
  split; [discriminate|].
  apply (img_object_detection_to_censored_img_modes (H := Sample.world) [1]
           Sample.image_busy Sample.rows3 [] [Sample.detect_call Sample.image_busy]);
    [reflexivity | vm_compute; reflexivity | discriminate].
Defined.

(** On the empty scene both image endpoints return the same banner. *)
Example censored_img_banner_sample :
  img_object_detection_to_censored_img (H := Sample.world) [0] []
  = img_object_detection_to_img (H := Sample.world) [0] []
  /\ last (img_object_detection_to_censored_img (H := Sample.world) [0] []).2
     = Some (EvText (20, 20) "NO OBJECTS DETECTED." ("arial.ttf"%string, 15)
               (inl (255, 165, 0))).
Proof. split; vm_compute; reflexivity. Qed.

(** One request on the busy scene: a single call of the detect model. *)
Example endpoints_call_detect_model_sample :
  predict_calls (img_object_detection_to_img (H := Sample.world) [1] []).2
  = [(Sample.detect,
      {| imgsz := 768; source := Sample.image_busy; conf := 1 # 2;
         save := false; augment := false;
         flipud := 0; fliplr := 0; mosaic := 0 |})]
  /\ predict_calls (img_object_detection_to_json (H := Sample.world) [2] []).2
     = [].
Proof. split; vm_compute; reflexivity. Qed.

(** * Further properties *)

(** ** Building the frame *)

Lemma map_fmap {A B} (f : A -> B) (l : list A) : map f l = f <$> l.
Proof. reflexivity. Qed.

Section Frame.
Context `{Externals}.

(** What detection does, in terms of the model's answer. *)
Lemma detect_sample_model_run (img : Image) (t : trace) :
  detect_sample_model img t
  = match YOLO_predict (mkYOLO "./models/sample_model/best.pt")
            {| imgsz := 768; source := img; conf := 1 # 2; save := false;
               augment := false; flipud := 0; fliplr := 0; mosaic := 0 |} with
    | Ok results =>
        transform_predict_to_df results
          (YOLO_names (mkYOLO "./models/sample_model/best.pt"))
          (t ++ [EvPredict (mkYOLO "./models/sample_model/best.pt")
                   {| imgsz := 768; source := img; conf := 1 # 2; save := false;
                      augment := false; flipud := 0; fliplr := 0; mosaic := 0 |}])
    | Raise e =>
        (Raise e,
         t ++ [EvPredict (mkYOLO "./models/sample_model/best.pt")
                 {| imgsz := 768; source := img; conf := 1 # 2; save := false;
                    augment := false; flipud := 0; fliplr := 0; mosaic := 0 |}])
    end.
Proof.
  unfold detect_sample_model, load_global.
  replace (app_globals !! "get_model_predict"%string)
    with (Some (GFunction "get_model_predict")) by (vm_compute; reflexivity).
  rewrite app_globals_model_sample_detect.
  unfold get_model_predict, model_predict.
  unfold bind, ret, emit, lift, as_model. simpl.
  by destruct (YOLO_predict _ _).
Qed.

End Frame.


(** ** Detection and the JSON endpoint *)

Lemma bind_Raise {A B} (m : M A) (k : A -> M B) t e t' :
  m t = (Raise e, t') -> bind m k t = (Raise e, t').
Proof. intros Hm. unfold bind. by rewrite Hm. Qed.

Lemma str_join_non_string (sep : string) (items : list cell) :
  Exists (fun c => exists z, c = CInt z) items ->
  str_join sep items = Raise (TypeError "sequence item: expected str instance").
Proof.
  induction items as [|c items IH]; intros Hex; [by apply Exists_nil in Hex|].
  destruct c as [s|z]; [|reflexivity].
  apply Exists_cons in Hex as [(z & Hz)|Hex]; [discriminate|].
  destruct items as [|c' items']; [by apply Exists_nil in Hex|].
  change (str_join sep (CStr s :: c' :: items'))
    with (match str_join sep (c' :: items') with
          | Ok r => Ok (s +:+ sep +:+ r)
          | Raise e => Raise e
          end).
  by rewrite IH.
Qed.

Lemma frame_columns (boxes : list RawBox) (labeles_dict : gmap Z string) :
  map (fun row => (name row, confidence row))
    (imap (fun i b =>
             let '(x1, y1, x2, y2) := b_xyxy b in
             let cls := py_int (b_cls b) in
             mkRow i x1 y1 x2 y2 (b_conf b) cls
               (match labeles_dict !! cls with
                | Some s => CStr s
                | None => CInt cls
                end)) boxes)
  = map (fun b => (match labeles_dict !! py_int (b_cls b) with
                   | Some s => CStr s
                   | None => CInt (py_int (b_cls b))
                   end, b_conf b)) boxes.
Proof.
  rewrite !map_fmap, fmap_imap. rewrite <- imap_const. apply imap_ext.
  intros i b _. simpl. by destruct (b_xyxy b) as [[[x1 y1] x2] y2].
Qed.

Section Json.
Context `{Externals}.

(** X2. Detection makes one call of the detect model and follows its
    answer: an exception of the model is raised again, an answer without
    any result raises [IndexError], and otherwise the frame built from
    the first result is returned. *)
Theorem detect_sample_model_outcomes (img : Image) (t : trace) :
  exists r,
    detect_sample_model img t
    = (r, t ++ [EvPredict (mkYOLO "./models/sample_model/best.pt")
                  {| imgsz := 768; source := img; conf := 1 # 2;
                     save := false; augment := false;
                     flipud := 0; fliplr := 0; mosaic := 0 |}])
    /\ match YOLO_predict (mkYOLO "./models/sample_model/best.pt")
               {| imgsz := 768; source := img; conf := 1 # 2;
                  save := false; augment := false;
                  flipud := 0; fliplr := 0; mosaic := 0 |} with
       | Raise e => r = Raise e
       | Ok [] => r = Raise (IndexError "list index out of range")
       | Ok (boxes :: _) =>
           exists df,
             r = Ok df
             /\ map index df = seq 0 (length boxes)
             /\ map confidence df = map b_conf boxes
             /\ map class df = map (fun b => py_int (b_cls b)) boxes
       end.
Proof.
  rewrite detect_sample_model_run.
  destruct (YOLO_predict _ _) as [[|boxes rest]|e]; simpl.
  - eexists. split; reflexivity.
  - eexists. split; [reflexivity|]. eexists. split; [reflexivity|].
    rewrite !map_fmap, !fmap_imap. repeat split.
    + transitivity (id <$> seq 0 (length boxes)); [|apply list_fmap_id].
      rewrite <- (imap_seq_0 boxes id). apply imap_ext.
      intros i b _. simpl. by destruct (b_xyxy b) as [[[x1 y1] x2] y2].
    + rewrite <- imap_const. apply imap_ext.
      intros i b _. simpl. by destruct (b_xyxy b) as [[[x1 y1] x2] y2].
    + rewrite <- imap_const. apply imap_ext.
      intros i b _. simpl. by destruct (b_xyxy b) as [[[x1 y1] x2] y2].
  - eexists. split; reflexivity.
Qed.

(** X3. From the model's answer to the JSON reply: when the upload
    decodes, the model reports at least one box and every reported class
    id is a key of the model's name mapping, the endpoint returns the
    looked-up names joined by a comma and a space and one
    name/confidence record per box, in the order the model listed the
    boxes. *)
Theorem img_object_detection_to_json_known_classes (file : bytes) (img : Image)
    (boxes : list RawBox) (rest : list (list RawBox)) (t : trace) :
  let detect := mkYOLO "./models/sample_model/best.pt" in
  let args := {| imgsz := 768; source := img; conf := 1 # 2; save := false;
                 augment := false; flipud := 0; fliplr := 0; mosaic := 0 |} in
  let class_name b := default ""%string (YOLO_names detect !! py_int (b_cls b)) in
  Image_open file = Ok img ->
  YOLO_predict detect args = Ok (boxes :: rest) ->
  boxes <> [] ->
  Forall (fun b => is_Some (YOLO_names detect !! py_int (b_cls b))) boxes ->
  img_object_detection_to_json file t
  = (Ok (PyDict
           [("detect_objects_names"%string,
             PyStr (String.concat ", " (map class_name boxes)));
            ("detect_objects"%string,
             PyList (map (fun b =>
                            PyDict [("name"%string, PyStr (class_name b));
                                    ("confidence"%string,
                                     PyFloat (json_float (b_conf b)))])
                       boxes))]),
     t ++ [EvPredict detect args]).
Proof.
  intros detect args class_name Hopen Hpred Hne Hknown.
  unfold img_object_detection_to_json, get_image_from_bytes.
  erewrite bind_Ok by (unfold lift; by rewrite Hopen).
  erewrite bind_Ok
    by (rewrite detect_sample_model_run; fold detect args; rewrite Hpred;
        reflexivity).
  rewrite length_imap.
  destruct boxes as [|b0 boxes0] eqn:Hb; [done|]. rewrite <- Hb in *.
  replace (length boxes =? 0)%nat with false by (by rewrite Hb).
  rewrite frame_columns. fold detect.
  assert (Hcols : map (fun b => (match YOLO_names detect !! py_int (b_cls b) with
                                 | Some s => CStr s
                                 | None => CInt (py_int (b_cls b))
                                 end, b_conf b)) boxes
                  = map (fun b => (CStr (class_name b), b_conf b)) boxes).
  { clear -Hknown. induction Hknown as [|b l [s Hs] _ IH]; [done|].
    simpl. rewrite IH. unfold class_name at 2. by rewrite Hs. }
  rewrite Hcols.
  assert (Hnames : map fst (map (fun b => (CStr (class_name b), b_conf b)) boxes)
                   = map CStr (map class_name boxes))
    by (rewrite !map_map; reflexivity).
  rewrite Hnames.
  erewrite bind_Ok by (unfold lift; rewrite str_join_strings; reflexivity).
  unfold ret, to_json_records. by rewrite map_map.
Qed.

(** X4. When the name of some detection is not a string (its class id
    has no entry in the name mapping), the JSON endpoint raises
    [TypeError] from the join and returns nothing. *)
Theorem img_object_detection_to_json_unnamed_class (file : bytes) (img : Image)
    (predict : DataFrame) (t t' : trace) :
  Image_open file = Ok img ->
  detect_sample_model img t = (Ok predict, t') ->
  Exists (fun row => exists z, name row = CInt z) predict ->
  img_object_detection_to_json file t
  = (Raise (TypeError "sequence item: expected str instance"), t').
Proof.
  intros Hopen Hdet Hex.
  unfold img_object_detection_to_json, get_image_from_bytes.
  erewrite bind_Ok by (unfold lift; by rewrite Hopen).
  erewrite bind_Ok by exact Hdet.
  destruct predict as [|row0 rest0] eqn:Hp; [by apply Exists_nil in Hex|].
  rewrite <- Hp in *.
  replace (length predict =? 0)%nat with false by (by rewrite Hp).
  erewrite bind_Raise; [reflexivity|].
  unfold lift. rewrite str_join_non_string; [reflexivity|].
  rewrite map_map. simpl. clear -Hex.
  induction Hex as [row l Hrow|row l _ IH]; simpl.
  - by apply Exists_cons_hd.
  - by apply Exists_cons_tl.
Qed.

(** X5. Whatever the upload, a reply of the JSON endpoint is a dictionary
    with either the single key [message] or the two keys
    [detect_objects_names] and [detect_objects], the latter bound to a
    string and a list; the dictionary it starts with,
    [{'detect_objects': None}], is never the reply. *)
Theorem img_object_detection_to_json_reply_shape (file : bytes) (t : trace) :
  match img_object_detection_to_json file t with
  | (Ok v, _) =>
      v = PyDict [("message"%string, PyStr "No objects detected.")]
      \/ exists joined records,
           v = PyDict [("detect_objects_names"%string, PyStr joined);
                       ("detect_objects"%string, PyList records)]
  | (Raise _, _) => True
  end.
Proof.
  unfold img_object_detection_to_json, bind, ret.
  repeat case_match; simplify_eq; eauto.
Qed.

End Json.

(** ** Failures and the image endpoints *)

Section Failures.
Context `{Externals}.

(** X6. An upload that does not decode fails the request at once: each
    endpoint raises the decoder's exception, and neither the model nor a
    drawing routine has been called. *)
Theorem endpoints_decode_failure (file : bytes) (e : exn) (t : trace) :
  Image_open file = Raise e ->
  img_object_detection_to_json file t = (Raise e, t)
  /\ img_object_detection_to_img file t = (Raise e, t)
  /\ img_object_detection_to_censored_img file t = (Raise e, t).
Proof.
  intros Hopen.
  unfold img_object_detection_to_json, img_object_detection_to_img,
    img_object_detection_to_censored_img, get_image_from_bytes.
  repeat split; apply bind_Raise; unfold lift; by rewrite Hopen.
Qed.

(** X7. When the model raises, each endpoint raises the same exception
    right after that one call of the model: nothing is drawn, blurred or
    encoded. *)
Theorem endpoints_inference_failure (file : bytes) (img : Image) (e : exn)
    (t : trace) :
  let detect := mkYOLO "./models/sample_model/best.pt" in
  let args := {| imgsz := 768; source := img; conf := 1 # 2; save := false;
                 augment := false; flipud := 0; fliplr := 0; mosaic := 0 |} in
  Image_open file = Ok img ->
  YOLO_predict detect args = Raise e ->
  img_object_detection_to_json file t = (Raise e, t ++ [EvPredict detect args])
  /\ img_object_detection_to_img file t = (Raise e, t ++ [EvPredict detect args])
  /\ img_object_detection_to_censored_img file t
     = (Raise e, t ++ [EvPredict detect args]).
Proof.
  intros detect args Hopen Hpred.
  assert (Hdet : detect_sample_model img t = (Raise e, t ++ [EvPredict detect args]))
    by (rewrite detect_sample_model_run; fold detect args; by rewrite Hpred).
  unfold img_object_detection_to_json, img_object_detection_to_img,
    img_object_detection_to_censored_img, get_image_from_bytes.
  repeat split;
    (erewrite bind_Ok by (unfold lift; by rewrite Hopen));
    by apply bind_Raise.
Qed.

(** X8. In annotated-image mode with a non-empty DetectionSet the reply
    is the JPEG encoding of the renderer's image; after detection the
    endpoint makes exactly one [box_label] call per detection and draws
    no banner text. *)
Theorem img_object_detection_to_img_nonempty (file : bytes) (img : Image)
    (predict : DataFrame) (t t' : trace) :
  Image_open file = Ok img ->
  detect_sample_model img t = (Ok predict, t') ->
  predict <> [] ->
  exists final_image labels,
    add_bboxs_on_img img predict t' = (Ok final_image, t' ++ labels)
    /\ img_object_detection_to_img file t
       = (Ok (mkStreamingResponse (Image_save final_image "JPEG" 85) "image/jpeg"),
          t' ++ labels)
    /\ length labels = length predict
    /\ Forall (fun ev => exists bbox text c, ev = EvBoxLabel bbox text c) labels.
Proof.
  intros Hopen Hdet Hne. do 2 eexists.
  split; [apply add_bboxs_on_img_run|]. split; [|split].
  - unfold img_object_detection_to_img, get_image_from_bytes.
    erewrite bind_Ok by (unfold lift; by rewrite Hopen).
    erewrite bind_Ok by exact Hdet.
    destruct predict as [|row0 rest0] eqn:Hp; [done|]. rewrite <- Hp.
    replace (length predict =? 0)%nat with false by (by rewrite Hp).
    erewrite bind_Ok by apply add_bboxs_on_img_run. reflexivity.
  - rewrite length_map.
    apply Permutation_length, sort_values_xmin_perm.
  - apply Forall_map, Forall_forall. intros row _. by do 3 eexists.
Qed.

(** X9. A reply of either image endpoint always has media type
    [image/jpeg]. *)
Theorem image_endpoints_media_type (file : bytes) (t : trace) :
  match img_object_detection_to_img file t with
  | (Ok resp, _) => media_type resp = "image/jpeg"%string
  | (Raise _, _) => True
  end
  /\ match img_object_detection_to_censored_img file t with
     | (Ok resp, _) => media_type resp = "image/jpeg"%string
     | (Raise _, _) => True
     end.
Proof.
  unfold img_object_detection_to_img, img_object_detection_to_censored_img.
  split; unfold bind, ret; repeat case_match; simplify_eq; done.
Qed.

End Failures.

(** ** More on the censor transform *)

Lemma for_each_app {A S} (l1 l2 : list A) (body : S -> A -> M S) (s : S) (t : trace) :
  for_each (l1 ++ l2) body s t
  = bind (for_each l1 body s) (for_each l2 body) t.
Proof.
  revert s t. induction l1 as [|a l1 IH]; intros s t; simpl; [done|].
  unfold bind in *. destruct (body s a t) as [[s'|e] t1]; [apply IH|done].
Qed.

Lemma arrays_eq (a b : ndarray) :
  length a = length b ->
  (forall y x, pixel_at a y x = pixel_at b y x) ->
  a = b.
Proof.
  intros Hlen Hpix. apply list_eq. intros y.
  destruct (a !! y) as [ra|] eqn:Ha, (b !! y) as [rb|] eqn:Hb.
  - f_equal. apply list_eq. intros x. specialize (Hpix y x).
    unfold pixel_at in Hpix. by rewrite Ha, Hb in Hpix.
  - apply lookup_lt_Some in Ha. apply lookup_ge_None in Hb. lia.
  - apply lookup_lt_Some in Hb. apply lookup_ge_None in Ha. lia.
  - done.
Qed.

Lemma existsb_Permutation {A} (f : A -> bool) (l l' : list A) :
  Permutation l l' -> existsb f l = existsb f l'.
Proof.
  induction 1 as [|a l l' _ IH|a b l|l l' l'' _ IH1 _ IH2]; simpl.
  - done.
  - by rewrite IH.
  - by destruct (f a), (f b).
  - by rewrite IH1.
Qed.

Lemma slice_index_le (i : Z) (n : nat) : (slice_index i n <= n)%nat.
Proof. unfold slice_index. destruct (Z.ltb_spec i 0); lia. Qed.

Lemma shape_of_row_lengths (a b : ndarray) :
  length <$> a = length <$> b -> length a = length b /\ shape_w a = shape_w b.
Proof.
  intros Hrows. split.
  - by rewrite <- (length_fmap length a), Hrows, length_fmap.
  - destruct a as [|ra a], b as [|rb b]; try done. simpl in Hrows. by simplify_eq.
Qed.

Lemma row_lengths_set_slice_scalar (arr : ndarray) (y1 y2 x1 x2 v : Z) :
  length <$> set_slice_scalar arr y1 y2 x1 x2 v = length <$> arr.
Proof.
  unfold set_slice_scalar. apply list_eq. intros y.
  rewrite !list_lookup_fmap, list_lookup_imap.
  destruct (arr !! y) as [row|]; simpl; [|done].
  destruct (in_slice y1 y2 _ y); [|done]. by rewrite length_imap.
Qed.

Lemma set_slice_array_Ok (arr : ndarray) (y1 y2 x1 x2 : Z) (sub out : ndarray) :
  set_slice_array arr y1 y2 x1 x2 sub = Ok out ->
  length <$> out = length <$> arr
  /\ forall y x,
       (in_slice y1 y2 (length arr) y && in_slice x1 x2 (shape_w arr) x) = false ->
       pixel_at out y x = pixel_at arr y x.
Proof.
  unfold set_slice_array. destruct (_ && _); [|done]. intros [= <-]. split.
  - apply list_eq. intros y. rewrite !list_lookup_fmap, list_lookup_imap.
    destruct (arr !! y) as [row|]; simpl; [|done].
    destruct (in_slice y1 y2 _ y); [|done]. by rewrite length_imap.
  - intros y x Hout. unfold pixel_at. rewrite list_lookup_imap.
    destruct (arr !! y) as [row|]; simpl; [|done].
    destruct (in_slice y1 y2 _ y); [|done]. simpl in Hout.
    rewrite list_lookup_imap. destruct (row !! x) as [p|]; simpl; [|done].
    by rewrite Hout.
Qed.

(** Writing the slice that was just read gives the array back. *)
Lemma set_slice_array_get_slice (arr : ndarray) (y1 y2 x1 x2 : Z) :
  rectangular arr ->
  set_slice_array arr y1 y2 x1 x2 (get_slice arr y1 y2 x1 x2) = Ok arr.
Proof.
  intros Hrect. unfold set_slice_array, get_slice.
  set (h := length arr). set (w := shape_w arr).
  set (ylo := slice_index y1 h). set (yhi := slice_index y2 h).
  set (xlo := slice_index x1 w). set (xhi := slice_index x2 w).
  pose proof (slice_index_le y2 h) as Hyhi. fold yhi in Hyhi.
  pose proof (slice_index_le x2 w) as Hxhi. fold xhi in Hxhi.
  assert (Hcheck :
    bool_decide (length (map (fun row : list pixel => take (xhi - xlo) (drop xlo row))
                           (take (yhi - ylo) (drop ylo arr))) = (yhi - ylo)%nat)
    && forallb (fun r : list pixel => bool_decide (length r = (xhi - xlo)%nat))
         (map (fun row : list pixel => take (xhi - xlo) (drop xlo row))
            (take (yhi - ylo) (drop ylo arr))) = true).
  { apply andb_true_iff. split.
    - apply bool_decide_eq_true. rewrite length_map, length_take, length_drop.
      fold h. lia.
    - apply forallb_forall. intros r Hr. apply in_map_iff in Hr as (row & <- & Hrow).
      apply bool_decide_eq_true. rewrite length_take, length_drop.
      assert (Hin : row ∈ arr).
      { apply list_elem_of_In in Hrow.
        apply list_elem_of_lookup in Hrow as [i Hi].
        apply lookup_take_Some in Hi as [Hi _]. rewrite lookup_drop in Hi.
        by eapply list_elem_of_lookup_2. }
      unfold rectangular in Hrect. rewrite Forall_forall in Hrect.
      rewrite (Hrect _ Hin). fold w. lia. }
  rewrite Hcheck. f_equal. apply list_eq. intros y. rewrite list_lookup_imap.
  destruct (arr !! y) as [row|] eqn:Hrow; simpl; [|done]. f_equal.
  destruct (in_slice y1 y2 h y) eqn:Hy; [|done].
  apply list_eq. intros x. rewrite list_lookup_imap.
  destruct (row !! x) as [p|] eqn:Hp; simpl; [|done]. f_equal.
  destruct (in_slice x1 x2 w x) eqn:Hx; [|done].
  unfold in_slice in Hy, Hx. fold ylo yhi in Hy. fold xlo xhi in Hx.
  apply andb_true_iff in Hy as [Hy1 Hy2]. apply andb_true_iff in Hx as [Hx1 Hx2].
  apply Nat.leb_le in Hy1, Hx1. apply Nat.ltb_lt in Hy2, Hx2.
  rewrite map_fmap, list_lookup_fmap, lookup_take_lt, lookup_drop by lia.
  replace (ylo + (y - ylo))%nat with y by lia. rewrite Hrow. simpl.
  rewrite lookup_take_lt, lookup_drop by lia.
  replace (xlo + (x - xlo))%nat with x by lia. by rewrite Hp.
Qed.

Lemma rectangular_flip_channels (arr : ndarray) :
  rectangular arr -> rectangular (flip_channels arr).
Proof.
  unfold rectangular. intros Hrect.
  assert (Hw : shape_w (flip_channels arr) = shape_w arr)
    by (destruct arr; [done | apply length_fmap]).
  rewrite Hw. unfold flip_channels. apply Forall_fmap.
  eapply Forall_impl; [exact Hrect|]. intros row Hrow. simpl.
  by rewrite length_fmap.
Qed.

Lemma row_lengths_flip_channels (arr : ndarray) :
  length <$> flip_channels arr = length <$> arr.
Proof.
  unfold flip_channels. rewrite <- list_fmap_compose. apply list_fmap_ext.
  intros _ row _. simpl. apply length_fmap.
Qed.

Section CensorMore.
Context `{Externals}.

Lemma censor_objects_mask_run (image : Image) (predictions : DataFrame) (t : trace) :
  censor_objects image predictions "mask" t
  = (Ok (flip_channels (fold_left mask_row predictions (flip_channels image))), t).
Proof.
  unfold censor_objects. simpl String.eqb.
  erewrite bind_Ok by (apply (for_each_pure _ _ mask_row); done).
  reflexivity.
Qed.

Lemma censor_objects_mask_pixels (image : Image) (predictions : DataFrame) :
  let out := flip_channels (fold_left mask_row predictions (flip_channels image)) in
  length out = length image
  /\ shape_w out = shape_w image
  /\ forall y x,
       pixel_at out y x
       = (fun p => if existsb (fun row => sliced (length image) (shape_w image) row y x)
                        predictions
                   then (0, 0, 0) else p) <$> pixel_at image y x.
Proof.
  intros out.
  destruct (fold_mask_row predictions (flip_channels image)) as (Hlen & Hw & Hpix).
  destruct (shape_of_row_lengths _ _ (row_lengths_flip_channels image)) as [Hl1 Hw1].
  destruct (shape_of_row_lengths _ _
              (row_lengths_flip_channels
                 (fold_left mask_row predictions (flip_channels image))))
    as [Hl2 Hw2].
  fold out in Hl2, Hw2.
  split; [congruence|]. split; [congruence|]. intros y x. unfold out.
  rewrite pixel_at_flip_channels, Hpix, pixel_at_flip_channels, Hl1, Hw1.
  destruct (pixel_at image y x) as [p|]; simpl; [|done].
  destruct (existsb _ predictions); [reflexivity|].
  by rewrite flip_pixel_involutive.
Qed.

(** X10. With [method = 'mask'] and boxes anywhere, also outside the
    image, [censor_objects] never raises and keeps the shape; a pixel is
    (0,0,0) exactly when the slices [y1:y2] and [x1:x2] of some
    detection select it, negative ends counted from the far edge, and is
    the input pixel otherwise. *)
Theorem censor_objects_mask_slices (image : Image) (predictions : DataFrame)
    (t : trace) :
  exists out,
    censor_objects image predictions "mask" t = (Ok out, t)
    /\ length out = length image
    /\ shape_w out = shape_w image
    /\ forall y x,
         pixel_at out y x
         = (fun p => if existsb (fun row =>
                                   sliced (length image) (shape_w image) row y x)
                          predictions
                     then (0, 0, 0) else p) <$> pixel_at image y x.
Proof.
  eexists. split; [apply censor_objects_mask_run|].
  apply censor_objects_mask_pixels.
Qed.

(** X11. Masking is idempotent: masking the masked image with the same
    DetectionSet returns it unchanged. *)
Theorem censor_objects_mask_idempotent (image : Image) (predictions : DataFrame)
    (t : trace) :
  exists out,
    censor_objects image predictions "mask" t = (Ok out, t)
    /\ censor_objects out predictions "mask" t = (Ok out, t).
Proof.
  eexists. split; [apply censor_objects_mask_run|].
  rewrite censor_objects_mask_run. f_equal. f_equal.
  set (out := flip_channels (fold_left mask_row predictions (flip_channels image))).
  destruct (censor_objects_mask_pixels image predictions) as (Hl1 & Hw1 & Hp1).
  destruct (censor_objects_mask_pixels out predictions) as (Hl2 & Hw2 & Hp2).
  fold out in Hl1, Hw1, Hp1.
  apply arrays_eq; [done|]. intros y x.
  rewrite Hp2, Hl1, Hw1, Hp1.
  destruct (pixel_at image y x) as [p|]; simpl; [|done].
  by destruct (existsb _ predictions).
Qed.

(** X12. Masking does not depend on the order of the detections. *)
Theorem censor_objects_mask_order (image : Image)
    (predictions predictions' : DataFrame) (t : trace) :
  Permutation predictions predictions' ->
  censor_objects image predictions "mask" t
  = censor_objects image predictions' "mask" t.
Proof.
  intros Hperm. rewrite !censor_objects_mask_run. f_equal. f_equal.
  destruct (censor_objects_mask_pixels image predictions) as (Hl1 & Hw1 & Hp1).
  destruct (censor_objects_mask_pixels image predictions') as (Hl2 & Hw2 & Hp2).
  apply arrays_eq; [congruence|]. intros y x.
  rewrite Hp1, Hp2. by rewrite (existsb_Permutation _ _ _ Hperm).
Qed.

(** X13. For every method, censoring the detections of two batches in
    turn is censoring them all at once; if the first batch raises, so
    does the whole. *)
Theorem censor_objects_batches (image : Image) (batch1 batch2 : DataFrame)
    (method : string) (t : trace) :
  censor_objects image (batch1 ++ batch2) method t
  = (censored <- censor_objects image batch1 method ;;
     censor_objects censored batch2 method) t.
Proof.
  unfold censor_objects. unfold bind at 1. rewrite for_each_app.
  unfold bind, ret.
  destruct (for_each batch1 _ (flip_channels image) t) as [[arr|e] t1]; [|done].
  by rewrite flip_channels_involutive.
Qed.

(** What the loop of [censor_objects] keeps, for every method: the trace,
    the shape, and the pixels that no slice selects. *)
Lemma censor_loop_frame (method : string) (predictions : DataFrame) :
  forall (arr : ndarray) (t : trace),
    match
      for_each predictions (fun open_cv_image row =>
        let x1 := py_int (xmin row) in
        let y1 := py_int (ymin row) in
        let x2 := py_int (xmax row) in
        let y2 := py_int (ymax row) in
        if String.eqb method "blur" then
          blurred <- lift (cv2_GaussianBlur (get_slice open_cv_image y1 y2 x1 x2)
                             (0, 0) 10) ;;
          lift (set_slice_array open_cv_image y1 y2 x1 x2 blurred)
        else if String.eqb method "mask" then
          ret (set_slice_scalar open_cv_image y1 y2 x1 x2 0)
        else ret open_cv_image) arr t
    with
    | (Ok out, t') =>
        t' = t
        /\ length <$> out = length <$> arr
        /\ forall y x,
             existsb (fun row => sliced (length arr) (shape_w arr) row y x)
               predictions = false ->
             pixel_at out y x = pixel_at arr y x
    | (Raise _, t') => t' = t
    end.
Proof.
  induction predictions as [|row rest IH]; intros arr t; [done|].
  cbn [for_each]. unfold bind at 1.
  set (step := (if String.eqb method "blur" then _ else _) : M ndarray).
  assert (Hstep : match step t with
                  | (Ok arr1, t1) =>
                      t1 = t
                      /\ length <$> arr1 = length <$> arr
                      /\ forall y x,
                           sliced (length arr) (shape_w arr) row y x = false ->
                           pixel_at arr1 y x = pixel_at arr y x
                  | (Raise _, t1) => t1 = t
                  end).
  { unfold step. destruct (String.eqb method "blur").
    - unfold bind, lift.
      destruct (cv2_GaussianBlur _ _ _) as [blurred|e]; [|done].
      destruct (set_slice_array _ _ _ _ _ blurred) as [arr1|e] eqn:Hset; [|done].
      apply set_slice_array_Ok in Hset as [Hrows Hpix]. by repeat split.
    - destruct (String.eqb method "mask"); unfold ret.
      + repeat split; [apply row_lengths_set_slice_scalar|].
        intros y x Hout. rewrite pixel_at_set_slice_scalar.
        unfold sliced in Hout. rewrite Hout. by destruct (pixel_at arr y x).
      + by repeat split. }
  destruct (step t) as [[arr1|e] t1]; [|done].
  destruct Hstep as (-> & Hrows1 & Hpix1).
  destruct (shape_of_row_lengths _ _ Hrows1) as [Hl Hw].
  specialize (IH arr1 t).
  destruct (for_each rest _ arr1 t) as [[out|e] t']; [|done].
  destruct IH as (-> & Hrows & Hpix). rewrite Hl, Hw in Hpix.
  split; [done|]. split; [congruence|].
  intros y x Hout. simpl in Hout. apply orb_false_iff in Hout as [Hrow Hrest].
  rewrite Hpix by done. by apply Hpix1.
Qed.

(** X14. For every method, blur included: [censor_objects] calls neither
    the model nor a drawing routine, and when it returns, the image has
    the shape of the input and every pixel that no detection's slice
    selects is the input pixel. *)
Theorem censor_objects_frame (image : Image) (predictions : DataFrame)
    (method : string) (t : trace) :
  match censor_objects image predictions method t with
  | (Ok out, t') =>
      t' = t
      /\ length <$> out = length <$> image
      /\ forall y x,
           existsb (fun row => sliced (length image) (shape_w image) row y x)
             predictions = false ->
           pixel_at out y x = pixel_at image y x
  | (Raise _, t') => t' = t
  end.
Proof.
  unfold censor_objects. unfold bind at 1.
  pose proof (censor_loop_frame method predictions (flip_channels image) t) as Hloop.
  destruct (for_each predictions _ (flip_channels image) t) as [[arr|e] t']; [|done].
  destruct Hloop as (-> & Hrows & Hpix). unfold ret.
  destruct (shape_of_row_lengths _ _ (row_lengths_flip_channels image)) as [Hl Hw].
  rewrite Hl, Hw in Hpix.
  split; [done|]. split.
  - by rewrite row_lengths_flip_channels, Hrows, row_lengths_flip_channels.
  - intros y x Hout.
    rewrite pixel_at_flip_channels, (Hpix y x Hout), pixel_at_flip_channels.
    destruct (pixel_at image y x) as [p|]; simpl; [|done].
    by rewrite flip_pixel_involutive.
Qed.

(** X15. With [method = 'blur'], when the blur raises on the region of a
    detection, [censor_objects] raises that exception: the detections
    before it have been processed and no image is returned. *)
Theorem censor_objects_blur_failure (image censored : Image)
    (before after : DataFrame) (row : Row) (e : exn) (t t' : trace) :
  censor_objects image before "blur" t = (Ok censored, t') ->
  cv2_GaussianBlur
    (get_slice (flip_channels censored) (py_int (ymin row)) (py_int (ymax row))
       (py_int (xmin row)) (py_int (xmax row))) (0, 0) 10 = Raise e ->
  censor_objects image (before ++ row :: after) "blur" t = (Raise e, t').
Proof.
  intros Hbefore Hblur.
  unfold censor_objects in *. unfold bind at 1 in Hbefore. unfold bind at 1.
  rewrite for_each_app. unfold bind at 1.
  destruct (for_each before _ (flip_channels image) t) as [[arr|e0] t1];
    [|discriminate].
  unfold ret in Hbefore. injection Hbefore as <- <-.
  rewrite flip_channels_involutive in Hblur.
  cbn [for_each]. simpl String.eqb. unfold bind, lift. by rewrite Hblur.
Qed.

(** X16. When the blur hands back the region of every detection of the
    run as it received it, as it does on regions of a single colour,
    censoring with [method = 'blur'] returns the image unchanged: reading
    a box out of the array and writing it back loses nothing, wherever
    the box lies. *)
Theorem censor_objects_still_blur (image : Image) (predictions : DataFrame)
    (t : trace) :
  rectangular image ->
  Forall (fun row =>
            let region :=
              get_slice (flip_channels image) (py_int (ymin row))
                (py_int (ymax row)) (py_int (xmin row)) (py_int (xmax row)) in
            cv2_GaussianBlur region (0, 0) 10 = Ok region) predictions ->
  censor_objects image predictions "blur" t = (Ok image, t).
Proof.
  intros Hrect Hstill. unfold censor_objects. simpl String.eqb.
  erewrite bind_Ok.
  - unfold ret. by rewrite flip_channels_involutive.
  - apply rectangular_flip_channels in Hrect.
    induction Hstill as [|row rest Hrow _ IH]; [done|].
    cbn [for_each]. erewrite bind_Ok; [exact IH|].
    unfold bind, lift. cbv zeta in Hrow. rewrite Hrow.
    by rewrite set_slice_array_get_slice.
Qed.

End CensorMore.

(** ** Draw order and the banner font *)

Section DrawOrder.
Context `{Externals}.

(** A row to the right of every sorted row goes last. *)
Lemma insert_by_xmin_last (keys : list Q) (r : nat * Row)
    (acc : list (nat * Row)) :
  Forall (fun r' => (xmin r'.2 < xmin r.2)%Q) acc ->
  insert_by_xmin keys r acc = acc ++ [r].
Proof.
  induction 1 as [|r' acc Hlt _ IH]; simpl; [done|].
  assert (Hbefore : argsort_before keys r' r = true).
  { unfold argsort_before.
    assert (Hle : Qle_bool (xmin r'.2) (xmin r.2) = true)
      by (apply Qle_bool_iff; by apply Qlt_le_weak).
    rewrite Hle.
    destruct (Qle_bool (xmin r.2) (xmin r'.2)) eqn:Hge; [|done].
    apply Qle_bool_iff in Hge. by apply Qle_not_lt in Hge. }
  by rewrite Hbefore, IH.
Qed.

Lemma sort_values_xmin_increasing_from (keys : list Q)
    (rows acc : list (nat * Row)) :
  StronglySorted (fun a b => (xmin a.2 < xmin b.2)%Q) (acc ++ rows) ->
  fold_left (fun acc r => insert_by_xmin keys r acc) rows acc = acc ++ rows.
Proof.
  revert acc. induction rows as [|r rows IH]; intros acc Hsorted; simpl.
  - by rewrite app_nil_r.
  - rewrite insert_by_xmin_last.
    + rewrite IH; rewrite <- app_assoc; [done|exact Hsorted].
    + clear IH. induction acc as [|a acc IHacc]; [done|].
      simpl in Hsorted. apply StronglySorted_inv in Hsorted as [Hs Hall].
      constructor; [|by apply IHacc].
      rewrite Forall_app in Hall. destruct Hall as [_ Hall].
      by apply Forall_inv in Hall.
Qed.

Lemma sort_values_xmin_increasing (predict : DataFrame) :
  StronglySorted (fun a b => (xmin a < xmin b)%Q) predict ->
  sort_values_xmin predict = predict.
Proof.
  intros Hsorted. unfold sort_values_xmin.
  rewrite (sort_values_xmin_increasing_from _ _ []); [apply snd_imap_pair|].
  simpl. rewrite <- (snd_imap_pair predict) in Hsorted.
  induction (imap pair predict) as [|a l IH]; [constructor|].
  rewrite fmap_cons in Hsorted.
  apply StronglySorted_inv in Hsorted as [Hs Hall].
  constructor; [by apply IH|].
  rewrite Forall_forall in Hall. apply Forall_forall. intros b Hb.
  apply Hall. by apply list_elem_of_fmap_2.
Qed.

(** X17. When the model lists the boxes from left to right, with [xmin]
    strictly increasing, the renderer draws them in the model's order,
    each with the colour of its class. *)
Theorem add_bboxs_on_img_left_to_right (image : Image) (predict : DataFrame)
    (t : trace) :
  StronglySorted (fun a b => (xmin a < xmin b)%Q) predict ->
  exists (text : Row -> string) final_image,
    add_bboxs_on_img image predict t
    = (Ok final_image,
       t ++ map (fun row =>
                   EvBoxLabel [xmin row; ymin row; xmax row; ymax row]
                     (text row) (colors (class row) true)) predict).
Proof.
  intros Hsorted.
  exists (fun row => name_field (numeric_frame predict) (name row) +:+ ": "
                       +:+ pretty (py_int (confidence row * 100)) +:+ "%").
  eexists. rewrite add_bboxs_on_img_run.
  by rewrite (sort_values_xmin_increasing predict Hsorted).
Qed.

(** X18. The banner needs the font: on an empty DetectionSet, when
    [arial.ttf] cannot be loaded, both image endpoints raise the loader's
    exception and draw nothing, while the JSON endpoint still replies. *)
Theorem empty_scene_without_font (file : bytes) (img : Image) (e : exn)
    (t t' : trace) :
  Image_open file = Ok img ->
  detect_sample_model img t = (Ok [], t') ->
  ImageFont_truetype "arial.ttf" 15 = Raise e ->
  img_object_detection_to_img file t = (Raise e, t')
  /\ img_object_detection_to_censored_img file t = (Raise e, t')
  /\ img_object_detection_to_json file t
     = (Ok (PyDict [("message"%string, PyStr "No objects detected.")]), t').
Proof.
  intros Hopen Hdet Hfont.
  unfold img_object_detection_to_img, img_object_detection_to_censored_img,
    img_object_detection_to_json, get_image_from_bytes.
  repeat split;
    (erewrite bind_Ok by (unfold lift; by rewrite Hopen));
    (erewrite bind_Ok by exact Hdet); cbn [length Nat.eqb];
    [apply bind_Raise; unfold lift; by rewrite Hfont ..|reflexivity].
Qed.

End DrawOrder.

(** ** The properties at work in the sample worlds *)

Lemma img_object_detection_to_json_known_classes_witness :
  img_object_detection_to_json (H := Sample.world) [1] []
  = (Ok (PyDict
           [("detect_objects_names"%string, PyStr "person, plate, person");
            ("detect_objects"%string,
             PyList
               [PyDict [("name"%string, PyStr "person");
                        ("confidence"%string, PyFloat (15 # 16))];
                PyDict [("name"%string, PyStr "plate");
                        ("confidence"%string, PyFloat (3 # 4))];
                PyDict [("name"%string, PyStr "person");
                        ("confidence"%string, PyFloat (1 # 2))]])]),
     [Sample.detect_call Sample.image_busy]).
Proof.
  apply (img_object_detection_to_json_known_classes (H := Sample.world) [1]
           Sample.image_busy Sample.boxes3 [] []);
    [reflexivity | reflexivity | discriminate | repeat constructor; by eexists].
Defined.

Lemma img_object_detection_to_json_unnamed_class_witness :
  img_object_detection_to_json (H := Sample.world_unnamed) [1] []
  = (Raise (TypeError "sequence item: expected str instance"),
     [Sample.detect_call Sample.image_busy]).
Proof.
  eapply (img_object_detection_to_json_unnamed_class (H := Sample.world_unnamed)
            [1] Sample.image_busy);
    [reflexivity | vm_compute; reflexivity | apply Exists_cons_hd; by eexists].
Defined.

Lemma endpoints_decode_failure_witness :
  img_object_detection_to_json (H := Sample.world) [2] []
  = (Raise (LibraryError "PIL.UnidentifiedImageError"), [])
  /\ img_object_detection_to_img (H := Sample.world) [2] []
     = (Raise (LibraryError "PIL.UnidentifiedImageError"), [])
  /\ img_object_detection_to_censored_img (H := Sample.world) [2] []
     = (Raise (LibraryError "PIL.UnidentifiedImageError"), []).
Proof.
  apply (endpoints_decode_failure (H := Sample.world) [2]). reflexivity.
Defined.

Lemma endpoints_inference_failure_witness :
  img_object_detection_to_json (H := Sample.world_down) [1] []
  = (Raise (LibraryError "ultralytics"), [Sample.detect_call Sample.image_busy])
  /\ img_object_detection_to_img (H := Sample.world_down) [1] []
     = (Raise (LibraryError "ultralytics"), [Sample.detect_call Sample.image_busy])
  /\ img_object_detection_to_censored_img (H := Sample.world_down) [1] []
     = (Raise (LibraryError "ultralytics"), [Sample.detect_call Sample.image_busy]).
Proof.
  apply (endpoints_inference_failure (H := Sample.world_down) [1]
           Sample.image_busy (LibraryError "ultralytics") []); reflexivity.
Defined.

Lemma img_object_detection_to_img_nonempty_witness :
  exists final_image labels,
    add_bboxs_on_img (H := Sample.world) Sample.image_busy Sample.rows3
      [Sample.detect_call Sample.image_busy]
    = (Ok final_image, [Sample.detect_call Sample.image_busy] ++ labels)
    /\ img_object_detection_to_img (H := Sample.world) [1] []
       = (Ok (mkStreamingResponse
                (@Image_save Sample.world final_image "JPEG" 85) "image/jpeg"),
          [Sample.detect_call Sample.image_busy] ++ labels)
    /\ length labels = length Sample.rows3
    /\ Forall (fun ev => exists bbox text c, ev = EvBoxLabel bbox text c) labels.
Proof.
  apply (img_object_detection_to_img_nonempty (H := Sample.world) [1]
           Sample.image_busy Sample.rows3 [] [Sample.detect_call Sample.image_busy]);
    [reflexivity | vm_compute; reflexivity | discriminate].
Defined.

Lemma censor_objects_mask_order_witness :
  censor_objects (H := Sample.world) Sample.image64 Sample.rows3 "mask" []
  = censor_objects (H := Sample.world) Sample.image64 (rev Sample.rows3) "mask" [].
Proof.
  apply (censor_objects_mask_order (H := Sample.world)). apply Permutation_rev.
Defined.

Lemma censor_objects_frame_witness :
  match censor_objects (H := Sample.world) Sample.image64 Sample.rows3 "blur" [] with
  | (Ok out, t') =>
      t' = []
      /\ length <$> out = length <$> Sample.image64
      /\ forall y x,
           existsb (fun row =>
                      sliced (length Sample.image64) (shape_w Sample.image64) row y x)
             Sample.rows3 = false ->
           pixel_at out y x = pixel_at Sample.image64 y x
  | (Raise _, t') => t' = []
  end.
Proof.
  exact (censor_objects_frame (H := Sample.world) Sample.image64 Sample.rows3
           "blur" []).
Defined.

Lemma censor_objects_blur_failure_witness :
  censor_objects (H := Sample.world) Sample.image64
    ([] ++ mkRow 0 1 1 1 1 (3 # 4) 0 (CStr "person") :: Sample.rows3) "blur" []
  = (Raise (LibraryError "cv2.error"), []).
Proof.
  apply (censor_objects_blur_failure (H := Sample.world) Sample.image64
           Sample.image64 []); reflexivity.
Defined.

Lemma censor_objects_still_blur_witness :
  censor_objects (H := Sample.world) (replicate 4 (replicate 6 (7, 7, 7)))
    Sample.rows3 "blur" []
  = (Ok (replicate 4 (replicate 6 (7, 7, 7))), []).
Proof.
  apply (censor_objects_still_blur (H := Sample.world));
    [repeat constructor | repeat constructor].
Defined.

Lemma add_bboxs_on_img_left_to_right_witness :
  exists (text : Row -> string) final_image,
    add_bboxs_on_img (H := Sample.world) Sample.image_busy
      [mkRow 1 0 0 2 2 (3 # 4) 1 (CStr "plate");
       mkRow 0 4 1 6 3 (15 # 16) 0 (CStr "person")] []
    = (Ok final_image,
       [] ++ map (fun row =>
                    EvBoxLabel [xmin row; ymin row; xmax row; ymax row]
                      (text row) (@colors Sample.world (class row) true))
               [mkRow 1 0 0 2 2 (3 # 4) 1 (CStr "plate");
                mkRow 0 4 1 6 3 (15 # 16) 0 (CStr "person")]).
Proof.
  apply (add_bboxs_on_img_left_to_right (H := Sample.world)).
  repeat constructor.
Defined.

Lemma empty_scene_without_font_witness :
  img_object_detection_to_img (H := Sample.world_nofont) [0] []
  = (Raise (LibraryError "OSError"), [Sample.detect_call Sample.image64])
  /\ img_object_detection_to_censored_img (H := Sample.world_nofont) [0] []
     = (Raise (LibraryError "OSError"), [Sample.detect_call Sample.image64])
  /\ img_object_detection_to_json (H := Sample.world_nofont) [0] []
     = (Ok (PyDict [("message"%string, PyStr "No objects detected.")]),
        [Sample.detect_call Sample.image64]).
Proof.
  apply (empty_scene_without_font (H := Sample.world_nofont) [0] Sample.image64);
    reflexivity.
Defined.
